(** * calendar-widgets: a shallow embedding of the calendar utilities

    The development follows the two JavaScript sources of the package:
    the bundle (getDaysInMonth, isValidYear, formatDate, listDaysInMonth,
    the locale table and a hardcoded-English getCalendarYear) and
    utils/getCalendarYear.js (the getCalendarYear that reads
    [locale.en.months]).

    The host's [Date] object is modelled after ECMA-262 (section "Date
    Objects"): time values are whole milliseconds or NaN, and the day and
    year arithmetic is the one of the standard.  Two conventions:
    - a finite Number is a rational (every double is one); the Date
      constructor only looks at its truncation;
    - the functions of the section [Program] are those of a host whose
      time zone is UTC, where LocalTime and UTC are the identity; the
      module [Zoned] has the Date functions for a host in any time zone,
      and what depends on the zone is stated there.
    What the host decides on its own (the text of toLocaleDateString, the
    parsing of a numeric string, the digits of a Number that is not a safe
    integer) is a field of the record [Host], a variable of the section
    [Program].  Values are the primitive ones (undefined, null, booleans,
    numbers, strings); symbols, BigInts and objects are not modelled. *)

From Stdlib Require Import ZArith QArith Qround Bool List String Ascii Lia.
Import ListNotations.
Local Open Scope string_scope.
Local Open Scope list_scope.
Local Open Scope Z_scope.

(** ** Completions: a normal value or a thrown error *)

Inductive exn : Type :=
| TypeError
| ReferenceError.

Inductive completion (A : Type) : Type :=
| Normal (a : A)
| Throw (e : exn).
Arguments Normal {A} a.
Arguments Throw {A} e.

Definition bind {A B : Type} (c : completion A) (k : A -> completion B) : completion B :=
  match c with
  | Normal a => k a
  | Throw e => Throw e
  end.

Notation "x <- c ;; k" := (bind c (fun x => k))
  (at level 61, c at next level, right associativity).

(** ** Numbers and primitive values *)

Inductive number : Type :=
| NaN
| Inf (negative : bool)
| Fin (q : Q).

Definition num (z : Z) : number := Fin (inject_Z z).

Inductive value : Type :=
| VUndefined
| VNull
| VBoolean (b : bool)
| VNumber (n : number)
| VString (s : string).

Definition vnum (z : Z) : value := VNumber (num z).

(** truncation toward zero, the finite case of ToIntegerOrInfinity *)
Definition Qtrunc (q : Q) : Z := Z.quot (Qnum q) (Zpos (Qden q)).

Definition isInteger (q : Q) : bool := Z.rem (Qnum q) (Zpos (Qden q)) =? 0.

(** the integer a Date abstract operation reads from a finite argument;
    [None] when the argument is NaN or infinite *)
Definition finite_int (n : number) : option Z :=
  match n with
  | Fin q => Some (Qtrunc q)
  | _ => None
  end.

Definition num_sub (a b : number) : number :=
  match a, b with
  | NaN, _ | _, NaN => NaN
  | Inf s, Inf t => if Bool.eqb s t then NaN else Inf s
  | Inf s, Fin _ => Inf s
  | Fin _, Inf t => Inf (negb t)
  | Fin p, Fin q => Fin (p - q)
  end.

Definition num_add (a b : number) : number :=
  match a, b with
  | NaN, _ | _, NaN => NaN
  | Inf s, Inf t => if Bool.eqb s t then Inf s else NaN
  | Inf s, Fin _ => Inf s
  | Fin _, Inf t => Inf t
  | Fin p, Fin q => Fin (p + q)
  end.

(** [a <= b] on Numbers: false as soon as one side is NaN *)
Definition num_leb (a b : number) : bool :=
  match a, b with
  | NaN, _ | _, NaN => false
  | Inf true, _ => true
  | _, Inf false => true
  | Inf false, _ => false
  | _, Inf true => false
  | Fin p, Fin q => Qle_bool p q
  end.

Definition num_eqb (a b : number) : bool :=
  match a, b with
  | Inf s, Inf t => Bool.eqb s t
  | Fin p, Fin q => Qeq_bool p q
  | _, _ => false
  end.

(** [a === b] *)
Definition strict_eqb (a b : value) : bool :=
  match a, b with
  | VUndefined, VUndefined => true
  | VNull, VNull => true
  | VBoolean x, VBoolean y => Bool.eqb x y
  | VNumber x, VNumber y => num_eqb x y
  | VString x, VString y => String.eqb x y
  | _, _ => false
  end.

(** [a !== b] *)
Definition strict_neqb (a b : value) : bool := negb (strict_eqb a b).

(** ** Decimal digits *)

Definition digit_of (d : Z) : ascii := ascii_of_nat (48 + Z.to_nat d).

Fixpoint pos_digits (fuel : nat) (p : Z) (acc : string) : string :=
  match fuel with
  | O => acc
  | S k =>
      let acc' := String (digit_of (p mod 10)) acc in
      if p / 10 =? 0 then acc' else pos_digits k (p / 10) acc'
  end.

(** the decimal text of an integer, with a leading minus sign when negative *)
Definition decimal (z : Z) : string :=
  match z with
  | Z0 => "0"
  | Zpos _ => pos_digits (S (Z.to_nat (Z.log2 z))) z ""
  | Zneg _ => String "-" (pos_digits (S (Z.to_nat (Z.log2 (- z)))) (- z) "")
  end.

(** ** Day and year arithmetic of ECMA-262 *)

Module DateMath.

Definition msPerDay : Z := 86400000.

Definition Day (t : Z) : Z := t / msPerDay.

Definition isLeapYear (y : Z) : bool :=
  (y mod 4 =? 0) && (negb (y mod 100 =? 0) || (y mod 400 =? 0)).

Definition DaysInYear (y : Z) : Z := if isLeapYear y then 366 else 365.

Definition DayFromYear (y : Z) : Z :=
  365 * (y - 1970) + (y - 1969) / 4 - (y - 1901) / 100 + (y - 1601) / 400.

Definition TimeFromYear (y : Z) : Z := msPerDay * DayFromYear y.

(** the year of a day number: an estimate from the mean length of a year,
    moved by at most one year; [YearFromDay_spec] shows that this is the
    largest [y] with [DayFromYear y <= d], the standard's definition *)
Definition YearFromDay (d : Z) : Z :=
  let y0 := 1970 + (400 * d) / 146097 in
  if d <? DayFromYear y0 then y0 - 1
  else if DayFromYear (y0 + 1) <=? d then y0 + 1
  else y0.

Definition YearFromTime (t : Z) : Z := YearFromDay (Day t).

Definition InLeapYear (t : Z) : Z :=
  if DaysInYear (YearFromTime t) =? 366 then 1 else 0.

Definition DayWithinYear (t : Z) : Z := Day t - DayFromYear (YearFromTime t).

(** the day within the year on which month [m] (0 = January) starts *)
Definition month_start (m leap : Z) : Z :=
  match m with
  | 0 => 0
  | 1 => 31
  | 2 => 59 + leap
  | 3 => 90 + leap
  | 4 => 120 + leap
  | 5 => 151 + leap
  | 6 => 181 + leap
  | 7 => 212 + leap
  | 8 => 243 + leap
  | 9 => 273 + leap
  | 10 => 304 + leap
  | 11 => 334 + leap
  | _ => 365 + leap
  end.

Definition MonthFromTime (t : Z) : Z :=
  let d := DayWithinYear t in
  let l := InLeapYear t in
  if d <? 31 then 0
  else if d <? 59 + l then 1
  else if d <? 90 + l then 2
  else if d <? 120 + l then 3
  else if d <? 151 + l then 4
  else if d <? 181 + l then 5
  else if d <? 212 + l then 6
  else if d <? 243 + l then 7
  else if d <? 273 + l then 8
  else if d <? 304 + l then 9
  else if d <? 334 + l then 10
  else 11.

Definition DateFromTime (t : Z) : Z :=
  let d := DayWithinYear t in
  let l := InLeapYear t in
  match MonthFromTime t with
  | 0 => d + 1
  | 1 => d - 30
  | 2 => d - 58 - l
  | 3 => d - 89 - l
  | 4 => d - 119 - l
  | 5 => d - 150 - l
  | 6 => d - 180 - l
  | 7 => d - 211 - l
  | 8 => d - 242 - l
  | 9 => d - 272 - l
  | 10 => d - 303 - l
  | _ => d - 333 - l
  end.

(** MakeFullYear: a year that truncates into 0..99 means 1900 + that *)
Definition MakeFullYear (y : number) : number :=
  match y with
  | Fin q =>
      let t := Qtrunc q in
      if (0 <=? t) && (t <=? 99) then num (1900 + t) else num t
  | other => other
  end.

(** MakeDay: the day number of the first day of month [mn] of year [ym],
    moved by the date; NaN ([None]) when an argument is not finite.  The
    arithmetic is exact, and a day out of range becomes NaN in TimeClip. *)
Definition MakeDay (year month date : number) : option Z :=
  match finite_int year, finite_int month, finite_int date with
  | Some y, Some m, Some dt =>
      let ym := y + m / 12 in
      let mn := m mod 12 in
      Some (DayFromYear ym + month_start mn (DaysInYear ym - 365) + dt - 1)
  | _, _, _ => None
  end.

(** MakeTime(0, 0, 0, 0) *)
Definition MakeTime0 : Z := 0.

Definition MakeDate (day : option Z) (time : Z) : option Z :=
  match day with
  | Some d => Some (d * msPerDay + time)
  | None => None
  end.

Definition TimeClip (t : option Z) : option Z :=
  match t with
  | Some v => if Z.abs v <=? 8640000000000000 then Some v else None
  | None => None
  end.

(** the host time zone is UTC *)
Definition UTC (t : option Z) : option Z := t.
Definition LocalTime (t : Z) : Z := t.

End DateMath.

(** ** The host *)

Record Host : Type := {
  (** StringToNumber: the Number a string converts to *)
  StringToNumber : string -> number;
  (** Number::toString for a finite Number that is not a safe integer *)
  number_text : Q -> string;
  (** Date.prototype.toLocaleDateString with the options
      [{ year: 'numeric', month: '2-digit', day: '2-digit' }], from the
      time value of the date and the locale argument ([None] is undefined,
      the host's default locale) *)
  toLocaleDateString : option Z -> option string -> string
}.

(** ** Strings and arrays of strings *)

Definition lower_ascii (c : ascii) : ascii :=
  let n := nat_of_ascii c in
  if (Nat.leb 65 n && Nat.leb n 90)%bool then ascii_of_nat (n + 32) else c.

(** String.prototype.toLowerCase, on ASCII text *)
Fixpoint toLowerCase (s : string) : string :=
  match s with
  | EmptyString => EmptyString
  | String c r => String (lower_ascii c) (toLowerCase r)
  end.

Fixpoint indexOf_from (l : list string) (x : string) (i : Z) : Z :=
  match l with
  | [] => -1
  | h :: t => if String.eqb h x then i else indexOf_from t x (i + 1)
  end.

(** Array.prototype.indexOf: the first index holding [x], or -1 *)
Definition indexOf (l : list string) (x : string) : Z := indexOf_from l x 0.

(** Array.prototype.reduceRight with an initial value: the callback sees
    the elements from the last to the first *)
Definition reduceRight {A B : Type} (f : B -> A -> B) (init : B) (l : list A) : B :=
  fold_right (fun x acc => f acc x) init l.

(** ** The program *)

Record MonthRecord : Type := {
  count : number;
  collection : list string
}.

(** An object with string keys, as the list of its own properties in
    insertion order (none of the keys used here is an array index, so
    insertion order is the order in which the keys are enumerated). *)
Definition CalendarYear : Type := list (string * MonthRecord).

(** defining a data property: an existing key keeps its place and takes
    the new value, a new key goes last *)
Fixpoint obj_set (k : string) (v : MonthRecord) (o : CalendarYear) : CalendarYear :=
  match o with
  | [] => [(k, v)]
  | (k', v') :: r =>
      if String.eqb k k' then (k, v) :: r else (k', v') :: obj_set k v r
  end.

(** the spread [...src] inside an object literal that holds [dst] so far *)
Definition obj_spread (src dst : CalendarYear) : CalendarYear :=
  fold_left (fun acc kv => obj_set (fst kv) (snd kv) acc) src dst.

Definition keys (o : CalendarYear) : list string := map fst o.

Fixpoint obj_get (k : string) (o : CalendarYear) : option MonthRecord :=
  match o with
  | [] => None
  | (k', v) :: r => if String.eqb k k' then Some v else obj_get k r
  end.

Record ErrorBody : Type := { body : string }.
Record ErrorObject : Type := { error : ErrorBody }.

Inductive result : Type :=
| Calendar (c : CalendarYear)
| Invalid (e : ErrorObject).

Record LocaleEntry : Type := { months : list string }.

(** the module's own objects: the exported [locale] *)
Record Store : Type := { locale : list (string * LocaleEntry) }.

Fixpoint lookup_locale (code : string) (l : list (string * LocaleEntry)) : option LocaleEntry :=
  match l with
  | [] => None
  | (c, e) :: r => if String.eqb code c then Some e else lookup_locale code r
  end.

Definition months_en : list string :=
  ["January"; "February"; "March"; "April"; "May"; "June"; "July";
   "August"; "September"; "October"; "November"; "December"].

Definition months_es : list string :=
  ["enero"; "febrero"; "marzo"; "abril"; "mayo"; "junio"; "julio";
   "agosto"; "septiembre"; "octubre"; "noviembre"; "diciembre"].

Definition initial_store : Store :=
  {| locale := [("en", {| months := months_en |});
                ("es", {| months := months_es |})] |}.

Definition error_prefix : string :=
  "The argument passed to `calendar('YYYY')` must be a valid year between 1900 and 2100. You passed ".

Section Program.

Variable host : Host.

(** *** Conversions *)

Definition ToNumber (v : value) : number :=
  match v with
  | VUndefined => NaN
  | VNull => num 0
  | VBoolean b => num (if b then 1 else 0)
  | VNumber n => n
  | VString s => StringToNumber host s
  end.

(** Number::toString in radix 10: a safe integer prints as its decimal
    digits, any other finite Number as the host prints it *)
Definition NumberToString (n : number) : string :=
  match n with
  | NaN => "NaN"
  | Inf false => "Infinity"
  | Inf true => "-Infinity"
  | Fin q =>
      if isInteger q && (Z.abs (Qtrunc q) <=? 9007199254740991)
      then decimal (Qtrunc q)
      else number_text host q
  end.

Definition ToString (v : value) : string :=
  match v with
  | VUndefined => "undefined"
  | VNull => "null"
  | VBoolean b => if b then "true" else "false"
  | VNumber n => NumberToString n
  | VString s => s
  end.

(** the global function isNaN *)
Definition isNaN (v : value) : bool :=
  match ToNumber v with
  | NaN => true
  | _ => false
  end.

(** the property read [v.length]: the length of a string (its characters
    are ASCII here); undefined on a number or a boolean, whose prototypes
    have no such property; a TypeError on undefined and null *)
Definition get_length (v : value) : completion value :=
  match v with
  | VUndefined | VNull => Throw TypeError
  | VBoolean _ | VNumber _ => Normal VUndefined
  | VString s => Normal (vnum (Z.of_nat (String.length s)))
  end.

(** *** Date objects *)

Record Date : Type := { DateValue : option Z }.

(** [new Date(year, month, date)] *)
Definition new_Date (year month date : value) : Date :=
  let y := ToNumber year in
  let m := ToNumber month in
  let dt := ToNumber date in
  let yr := DateMath.MakeFullYear y in
  let finalDate := DateMath.MakeDate (DateMath.MakeDay yr m dt) DateMath.MakeTime0 in
  {| DateValue := DateMath.TimeClip (DateMath.UTC finalDate) |}.

Definition getFullYear (d : Date) : number :=
  match DateValue d with
  | None => NaN
  | Some t => num (DateMath.YearFromTime (DateMath.LocalTime t))
  end.

Definition getDate (d : Date) : number :=
  match DateValue d with
  | None => NaN
  | Some t => num (DateMath.DateFromTime (DateMath.LocalTime t))
  end.

(** *** The functions of the bundle *)

Definition getDaysInMonth (year month : value) : number :=
  getDate (new_Date year month (vnum 0)).

Definition isValidYear (year : value) : completion bool :=
  let date := new_Date year (vnum 1) (vnum 1) in
  let y := VNumber (getFullYear date) in
  if isNaN y then Normal false
  else
    len <- get_length y ;;
    if strict_neqb len (vnum 4) then Normal false else Normal true.

(** [locale] is the optional fourth argument; [None] is undefined *)
Definition formatDate (month day year : value) (locale : option string) : string :=
  let date := new_Date year (VNumber (num_sub (ToNumber month) (num 1))) day in
  toLocaleDateString host (DateValue date) locale.

(** how often the body of [for (day = 1; day <= n; day++)] runs: the
    integers from 1 to [n], none when [n] is NaN *)
Definition loop_bound (n : number) : nat :=
  match n with
  | Fin q => Z.to_nat (Qfloor q)
  | _ => O
  end.

(** the loop of listDaysInMonth, from the state ([day], [dates]) *)
Fixpoint days_loop (fuel : nat) (day : Z) (daysInMonth : number)
    (month year : value) (dates : list string) : list string :=
  match fuel with
  | O => dates
  | S k =>
      if num_leb (num day) daysInMonth
      then days_loop k (day + 1) daysInMonth month year
             (dates ++ [formatDate month (vnum day) year None])
      else dates
  end.

Definition listDaysInMonth (month year : value) : list string :=
  let daysInMonth := getDate (new_Date year month (vnum 0)) in
  days_loop (loop_bound daysInMonth) 1 daysInMonth month year [].

(** *** getCalendarYear *)

Definition error_object (year : value) : ErrorObject :=
  {| error := {| body := (error_prefix ++ ToString year ++ ".")%string |} |}.

(** the callback handed to reduceRight: an object literal with the computed
    key first and the collector spread after it.  listDaysInMonth is called
    with the year first and the month index second, as the source does. *)
Definition month_entry (names : list string) (year : value)
    (collector : CalendarYear) (current : string) : CalendarYear :=
  obj_spread collector
    (obj_set (toLowerCase current)
       {| count := getDaysInMonth year (vnum (indexOf names current + 1));
          collection := listDaysInMonth year (vnum (indexOf names current + 1)) |}
       []).

(** the record that callback stores under the month [current] *)
Definition month_record (names : list string) (year : value) (current : string) : MonthRecord :=
  {| count := getDaysInMonth year (vnum (indexOf names current + 1));
     collection := listDaysInMonth year (vnum (indexOf names current + 1)) |}.

Definition build_calendar (names : list string) (year : value) : CalendarYear :=
  reduceRight (month_entry names year) [] names.

(** [locale.en.months]: a TypeError when [locale.en] is undefined *)
Definition locale_en_months (st : Store) : completion (list string) :=
  match lookup_locale "en" (locale st) with
  | Some e => Normal (months e)
  | None => Throw TypeError
  end.

(** utils/getCalendarYear.js, with the validator as a parameter so that both
    branches of the guard can be spoken about *)
Definition getCalendarYear_with (valid : value -> completion bool)
    (st : Store) (year : value) : completion result :=
  ok <- valid year ;;
  if negb ok then Normal (Invalid (error_object year))
  else
    names <- locale_en_months st ;;
    Normal (Calendar (build_calendar names year)).

(** utils/getCalendarYear.js *)
Definition getCalendarYear (st : Store) (year : value) : completion result :=
  getCalendarYear_with isValidYear st year.

End Program.

(** *** The hardcoded-English duplicate of the bundle *)

Module Bundle.

(** the identifier [months]: the bundle declares [months$1] and [months$2]
    only, and no global of that name is taken to exist, so reading it is a
    ReferenceError *)
Definition months : completion (list string) := Throw ReferenceError.

Definition getCalendarYear_with (host : Host) (valid : value -> completion bool)
    (year : value) : completion result :=
  ok <- valid year ;;
  if ok then Normal (Invalid (error_object host year))
  else
    names <- months ;;
    Normal (Calendar (build_calendar host names year)).

Definition getCalendarYear (host : Host) (year : value) : completion result :=
  getCalendarYear_with host (isValidYear host) year.

End Bundle.

(** ** The exported operations, run against the module's store *)

Inductive call : Type :=
| CallFormatDate (month day year : value) (locale : option string)
| CallGetCalendarYear (year : value)
| CallBundleGetCalendarYear (year : value)
| CallGetDaysInMonth (year month : value)
| CallIsValidYear (year : value)
| CallListDaysInMonth (month year : value).

Inductive answer : Type :=
| ABoolean (b : bool)
| ANumber (n : number)
| AString (s : string)
| AStrings (l : list string)
| AResult (r : result).

Definition fmap {A B : Type} (f : A -> B) (c : completion A) : completion B :=
  x <- c ;; Normal (f x).

(** one call: its completion and the store it leaves *)
Definition run (host : Host) (c : call) (st : Store) : completion answer * Store :=
  match c with
  | CallFormatDate month day year loc =>
      (Normal (AString (formatDate host month day year loc)), st)
  | CallGetCalendarYear year => (fmap AResult (getCalendarYear host st year), st)
  | CallBundleGetCalendarYear year =>
      (fmap AResult (Bundle.getCalendarYear host year), st)
  | CallGetDaysInMonth year month =>
      (Normal (ANumber (getDaysInMonth host year month)), st)
  | CallIsValidYear year => (fmap ABoolean (isValidYear host year), st)
  | CallListDaysInMonth month year =>
      (Normal (AStrings (listDaysInMonth host month year)), st)
  end.

Fixpoint run_all (host : Host) (cs : list call) (st : Store) : Store :=
  match cs with
  | [] => st
  | c :: r => run_all host r (snd (run host c st))
  end.

(** ** Reference definitions, worded as the specification words them *)

(** leap years: [Y % 4 == 0 and (Y % 100 != 0 or Y % 400 == 0)] *)
Definition leap_year (y : Z) : bool :=
  (Z.rem y 4 =? 0) && (negb (Z.rem y 100 =? 0) || (Z.rem y 400 =? 0)).

(** the Gregorian days-per-month table, months 1 to 12 *)
Definition gregorian_days (y m : Z) : Z :=
  match m with
  | 1 => 31
  | 2 => if leap_year y then 29 else 28
  | 3 => 31
  | 4 => 30
  | 5 => 31
  | 6 => 30
  | 7 => 31
  | 8 => 31
  | 9 => 30
  | 10 => 31
  | 11 => 30
  | 12 => 31
  | _ => 0
  end.

(** the validator of the specification: the year read back is a number and
    its decimal text has exactly 4 characters *)
Definition isValidYear_spec (host : Host) (year : value) : bool :=
  let y := getFullYear (new_Date host year (vnum 1) (vnum 1)) in
  negb (isNaN host (VNumber y)) && Nat.eqb (String.length (NumberToString host y)) 4.

(** the year the Date constructor works with: 0..99 stand for 1900..1999 *)
Definition full_year (y : Z) : Z :=
  if (0 <=? y) && (y <=? 99) then 1900 + y else y.

(** the integers [from], [from + 1], ... ([n] of them) *)
Fixpoint days_from (from : Z) (n : nat) : list Z :=
  match n with
  | O => []
  | S k => from :: days_from (from + 1) k
  end.

(** [s] occurs in [t] *)
Definition occurs_in (s t : string) : Prop :=
  exists pre post : string, t = (pre ++ s ++ post)%string.

(** the text listDaysInMonth pushes for day [d] *)
Definition format_day (host : Host) (month year : value) (d : Z) : string :=
  formatDate host month (vnum d) year None.

(** the day number of day 0 of the month after month [m] of year [y], as
    MakeDay computes it: the last day of month [m] *)
Definition last_day (y m : Z) : Z :=
  DateMath.DayFromYear (y + m / 12)
  + DateMath.month_start (m mod 12) (DateMath.DaysInYear (y + m / 12) - 365) + 0 - 1.

(** the day number of day [d] of month [m] (1 = January) of year [y], as
    MakeDay computes it from the month index [m - 1] *)
Definition month_day (y m d : Z) : Z :=
  DateMath.DayFromYear (y + (m - 1) / 12)
  + DateMath.month_start ((m - 1) mod 12) (DateMath.DaysInYear (y + (m - 1) / 12) - 365)
  + d - 1.

(** ** Dates on a host in any time zone

    The Date functions above are the ones of a host whose zone is UTC.
    Here the zone is a parameter: [offset_of_utc] is LocalTZA(t, true), the
    offset in force at the UTC time [t], and [offset_of_local] is
    LocalTZA(t, false), the offset the host takes for the local time [t]
    (for a local time its zone skipped or repeated, the one before the
    change).  The constructor turns local time into UTC and getDate turns
    it back. *)

Module Zoned.

Record TimeZone : Type := {
  offset_of_utc : Z -> Z;
  offset_of_local : Z -> Z
}.

Definition utc : TimeZone :=
  {| offset_of_utc := fun _ => 0; offset_of_local := fun _ => 0 |}.

Definition LocalTime (tz : TimeZone) (t : Z) : Z := t + offset_of_utc tz t.

Definition UTC (tz : TimeZone) (t : option Z) : option Z :=
  match t with
  | Some v => Some (v - offset_of_local tz v)
  | None => None
  end.

(** a zone that went from UTC-10:40 to UTC+14:00 at the end of 30 December
    1994 and so skipped 31 December 1994, day 9130 (Pacific/Kiritimati):
    the change is at 10:40 UTC, and local times up to 00:40 on 1 January
    1995 take the offset before it *)
Definition line_islands : TimeZone :=
  {| offset_of_utc := fun t =>
       if t <? 9130 * 86400000 + 38400000 then -38400000 else 50400000;
     offset_of_local := fun t =>
       if t <? 9131 * 86400000 + 2400000 then -38400000 else 50400000 |}.

(** [new Date(year, month, date)] *)
Definition new_Date (tz : TimeZone) (host : Host) (year month date : value) : Date :=
  let y := ToNumber host year in
  let m := ToNumber host month in
  let dt := ToNumber host date in
  let yr := DateMath.MakeFullYear y in
  let finalDate := DateMath.MakeDate (DateMath.MakeDay yr m dt) DateMath.MakeTime0 in
  {| DateValue := DateMath.TimeClip (UTC tz finalDate) |}.

Definition getDate (tz : TimeZone) (d : Date) : number :=
  match DateValue d with
  | None => NaN
  | Some t => num (DateMath.DateFromTime (LocalTime tz t))
  end.

Definition getDaysInMonth (tz : TimeZone) (host : Host) (year month : value) : number :=
  getDate tz (new_Date tz host year month (vnum 0)).

Definition formatDate (tz : TimeZone) (host : Host) (month day year : value)
    (locale : option string) : string :=
  let date := new_Date tz host year (VNumber (num_sub (ToNumber host month) (num 1))) day in
  toLocaleDateString host (DateValue date) locale.

Fixpoint days_loop (tz : TimeZone) (host : Host) (fuel : nat) (day : Z)
    (daysInMonth : number) (month year : value) (dates : list string) : list string :=
  match fuel with
  | O => dates
  | S k =>
      if num_leb (num day) daysInMonth
      then days_loop tz host k (day + 1) daysInMonth month year
             (dates ++ [formatDate tz host month (vnum day) year None])
      else dates
  end.

Definition listDaysInMonth (tz : TimeZone) (host : Host) (month year : value) : list string :=
  let daysInMonth := getDate tz (new_Date tz host year month (vnum 0)) in
  days_loop tz host (loop_bound daysInMonth) 1 daysInMonth month year [].

(** the host keeps the local day [d]: the offset it takes for local
    midnight of day [d] is at most a day, and that midnight, taken to UTC
    and back to local time, is a time of day [d].  It fails for a day the
    zone skipped as a whole. *)
Definition keeps_day (tz : TimeZone) (d : Z) : Prop :=
  Z.abs (offset_of_local tz (d * DateMath.msPerDay)) <= DateMath.msPerDay
  /\ DateMath.Day
       (LocalTime tz (d * DateMath.msPerDay - offset_of_local tz (d * DateMath.msPerDay)))
     = d.

End Zoned.

(** ** A host to run the definitions on *)

Module SampleHost.

Definition pad2 (z : Z) : string :=
  if z <? 10 then ("0" ++ decimal z)%string else decimal z.

(** en-US dates: MM/DD/YYYY *)
Definition en_US (tv : option Z) (loc : option string) : string :=
  match tv with
  | None => "Invalid Date"
  | Some t =>
      (pad2 (DateMath.MonthFromTime t + 1) ++ "/" ++ pad2 (DateMath.DateFromTime t)
        ++ "/" ++ decimal (DateMath.YearFromTime t))%string
  end.

Fixpoint read_digits (s : string) (acc : Z) : option Z :=
  match s with
  | EmptyString => Some acc
  | String c r =>
      let n := nat_of_ascii c in
      if (Nat.leb 48 n && Nat.leb n 57)%bool
      then read_digits r (10 * acc + Z.of_nat (n - 48))
      else None
  end.

(** unsigned decimal integers; any other text is NaN *)
Definition parse (s : string) : number :=
  match read_digits s 0 with
  | Some z => num z
  | None => NaN
  end.

Definition host : Host :=
  {| StringToNumber := parse;
     number_text := fun q => (decimal (Qnum q) ++ "/" ++ decimal (Zpos (Qden q)))%string;
     toLocaleDateString := en_US |}.

End SampleHost.

(** * Properties *)

(** ** Years and days *)

Module DateFacts.
Import DateMath.

Ltac floor_arith := Z.to_euclidean_division_equations; lia.

Lemma quarter_step y :
  (y + 1 - 1969) / 4 = (y - 1969) / 4 + (if y mod 4 =? 0 then 1 else 0).
Proof. destruct (Z.eqb_spec (y mod 4) 0); floor_arith. Qed.

Lemma century_step y :
  (y + 1 - 1901) / 100 = (y - 1901) / 100 + (if y mod 100 =? 0 then 1 else 0).
Proof. destruct (Z.eqb_spec (y mod 100) 0); floor_arith. Qed.

Lemma cycle_step y :
  (y + 1 - 1601) / 400 = (y - 1601) / 400 + (if y mod 400 =? 0 then 1 else 0).
Proof. destruct (Z.eqb_spec (y mod 400) 0); floor_arith. Qed.

Lemma cycle_is_century y : y mod 400 = 0 -> y mod 100 = 0.
Proof. intros H; floor_arith. Qed.

Lemma century_is_quarter y : y mod 100 = 0 -> y mod 4 = 0.
Proof. intros H; floor_arith. Qed.

(** a year is as long as [DaysInYear] says *)
Lemma DayFromYear_succ y : DayFromYear (y + 1) = DayFromYear y + DaysInYear y.
Proof.
  unfold DayFromYear, DaysInYear, isLeapYear.
  rewrite quarter_step, century_step, cycle_step.
  destruct (Z.eqb_spec (y mod 400) 0) as [H400 | H400].
  - rewrite (cycle_is_century _ H400), (century_is_quarter _ (cycle_is_century _ H400)).
    cbn [Z.eqb andb orb negb]. lia.
  - destruct (Z.eqb_spec (y mod 100) 0) as [H100 | H100].
    + rewrite (century_is_quarter _ H100). cbn [Z.eqb andb orb negb]. lia.
    + destruct (y mod 4 =? 0); cbn [andb orb negb]; lia.
Qed.

Lemma DaysInYear_cases y : DaysInYear y = 365 \/ DaysInYear y = 366.
Proof. unfold DaysInYear. destruct (isLeapYear y); auto. Qed.

Lemma DayFromYear_lt y : DayFromYear y < DayFromYear (y + 1).
Proof. rewrite DayFromYear_succ. destruct (DaysInYear_cases y); lia. Qed.

(** [DayFromYear] grows with the year *)
Lemma DayFromYear_mono_nat y (n : nat) : DayFromYear y <= DayFromYear (y + Z.of_nat n).
Proof.
  induction n as [| n IH].
  - rewrite Z.add_0_r. lia.
  - replace (y + Z.of_nat (S n)) with ((y + Z.of_nat n) + 1) by lia.
    pose proof (DayFromYear_lt (y + Z.of_nat n)). lia.
Qed.

Lemma DayFromYear_mono y1 y2 : y1 <= y2 -> DayFromYear y1 <= DayFromYear y2.
Proof.
  intros H. replace y2 with (y1 + Z.of_nat (Z.to_nat (y2 - y1))) by lia.
  apply DayFromYear_mono_nat.
Qed.

Lemma estimate_low d : DayFromYear (1970 + (400 * d) / 146097 - 1) <= d.
Proof. unfold DayFromYear. floor_arith. Qed.

Lemma estimate_high d : d < DayFromYear (1970 + (400 * d) / 146097 + 2).
Proof. unfold DayFromYear. floor_arith. Qed.

(** the year of a day: the year starts on or before it, the next one after *)
Lemma YearFromDay_spec d :
  DayFromYear (YearFromDay d) <= d < DayFromYear (YearFromDay d + 1).
Proof.
  unfold YearFromDay.
  pose proof (estimate_low d) as Hlo. pose proof (estimate_high d) as Hhi.
  set (y0 := 1970 + (400 * d) / 146097) in *.
  destruct (Z.ltb_spec d (DayFromYear y0)) as [Hlt | Hge].
  - replace (y0 - 1 + 1) with y0 by lia. lia.
  - destruct (Z.leb_spec (DayFromYear (y0 + 1)) d) as [Hle | Hgt].
    + replace (y0 + 1 + 1) with (y0 + 2) by lia. lia.
    + lia.
Qed.

(** ... and it is the only such year: the largest [y] with
    [DayFromYear y <= d] *)
Lemma YearFromDay_unique d y :
  DayFromYear y <= d < DayFromYear (y + 1) -> YearFromDay d = y.
Proof.
  intros [Hlo Hhi]. destruct (YearFromDay_spec d) as [Slo Shi].
  destruct (Z.lt_trichotomy (YearFromDay d) y) as [Hlt | [Heq | Hgt]]; [| exact Heq |].
  - pose proof (DayFromYear_mono (YearFromDay d + 1) y ltac:(lia)). lia.
  - pose proof (DayFromYear_mono (y + 1) (YearFromDay d) ltac:(lia)). lia.
Qed.

Lemma YearFromDay_largest d y : DayFromYear y <= d -> y <= YearFromDay d.
Proof.
  intros H. destruct (YearFromDay_spec d) as [_ Shi].
  destruct (Z.le_gt_cases y (YearFromDay d)) as [Hle | Hgt]; [exact Hle |].
  pose proof (DayFromYear_mono (YearFromDay d + 1) y ltac:(lia)). lia.
Qed.

Lemma YearFromDay_offset y k :
  0 <= k < DaysInYear y -> YearFromDay (DayFromYear y + k) = y.
Proof.
  intros H. apply YearFromDay_unique. rewrite DayFromYear_succ. lia.
Qed.

Lemma Day_of_day d : Day (d * msPerDay) = d.
Proof. unfold Day, msPerDay. apply Z.div_mul. lia. Qed.

End DateFacts.

(** ** The last day of a month *)

Module MonthFacts.
Import DateMath DateFacts.

Lemma rem_zero_mod y k : k <> 0 -> (Z.rem y k =? 0) = (y mod k =? 0).
Proof.
  intros Hk.
  destruct (Z.eqb_spec (Z.rem y k) 0) as [H | H];
    destruct (Z.eqb_spec (y mod k) 0) as [H' | H']; try reflexivity; exfalso.
  - apply H'. apply Z.mod_divide; [exact Hk |]. apply Z.rem_divide; assumption.
  - apply H. apply Z.rem_divide; [exact Hk |]. apply Z.mod_divide; assumption.
Qed.

(** the leap rule of the specification is the one of the Date arithmetic *)
Lemma leap_year_isLeapYear y : leap_year y = isLeapYear y.
Proof. unfold leap_year, isLeapYear. rewrite !rem_zero_mod by lia. reflexivity. Qed.

Ltac fix_month_start :=
  repeat match goal with
  | |- context [month_start ?a ?b] =>
      let v := eval vm_compute in (month_start a b) in
      change (month_start a b) with v
  end.

Ltac month_cases m H :=
  assert (H : m = 1 \/ m = 2 \/ m = 3 \/ m = 4 \/ m = 5 \/ m = 6 \/ m = 7
              \/ m = 8 \/ m = 9 \/ m = 10 \/ m = 11 \/ m = 12) by lia.

Lemma last_day_offset y m :
  1 <= m <= 12 ->
  last_day y m = DayFromYear y + (month_start m (DaysInYear y - 365) - 1).
Proof.
  intros Hm. unfold last_day.
  destruct (Z.eq_dec m 12) as [-> | Hne].
  - change (12 / 12) with 1. change (12 mod 12) with 0.
    rewrite DayFromYear_succ. unfold month_start. lia.
  - rewrite Z.div_small, Z.mod_small by lia. rewrite !Z.add_0_r. lia.
Qed.

Lemma last_day_in_year y m :
  1 <= m <= 12 -> 0 <= month_start m (DaysInYear y - 365) - 1 < DaysInYear y.
Proof.
  intros Hm. month_cases m Hc.
  destruct (DaysInYear_cases y) as [-> | ->];
    repeat (destruct Hc as [-> | Hc]); try subst m; fix_month_start; lia.
Qed.

(** the last day of month [m] lies in year [y], and its date is the length
    of the month *)
Lemma last_day_date y m :
  1 <= m <= 12 ->
  YearFromDay (last_day y m) = y /\
  DateFromTime (last_day y m * msPerDay) = gregorian_days y m.
Proof.
  intros Hm.
  assert (Hy : YearFromDay (last_day y m) = y).
  { rewrite last_day_offset by exact Hm.
    apply YearFromDay_offset, last_day_in_year, Hm. }
  split; [exact Hy |].
  unfold DateFromTime, MonthFromTime, DayWithinYear, InLeapYear, YearFromTime.
  rewrite Day_of_day, Hy, last_day_offset by exact Hm.
  replace (DayFromYear y + (month_start m (DaysInYear y - 365) - 1) - DayFromYear y)
    with (month_start m (DaysInYear y - 365) - 1) by lia.
  month_cases m Hc.
  unfold gregorian_days. rewrite leap_year_isLeapYear. unfold DaysInYear.
  destruct (isLeapYear y);
    repeat (destruct Hc as [-> | Hc]); try subst m; reflexivity.
Qed.

(** MakeDay as the standard words it: the day it starts from is the one
    whose year is [ym], whose month is [mn] and whose date is 1 *)
Lemma first_of_month ym mn :
  0 <= mn <= 11 ->
  let d := DayFromYear ym + month_start mn (DaysInYear ym - 365) in
  YearFromTime (d * msPerDay) = ym
  /\ MonthFromTime (d * msPerDay) = mn
  /\ DateFromTime (d * msPerDay) = 1.
Proof.
  intros Hm d.
  assert (Hc : mn = 0 \/ mn = 1 \/ mn = 2 \/ mn = 3 \/ mn = 4 \/ mn = 5 \/ mn = 6
               \/ mn = 7 \/ mn = 8 \/ mn = 9 \/ mn = 10 \/ mn = 11) by lia.
  assert (Hk : 0 <= month_start mn (DaysInYear ym - 365) < DaysInYear ym).
  { destruct (DaysInYear_cases ym) as [-> | ->];
      repeat (destruct Hc as [-> | Hc]); try subst mn; fix_month_start; lia. }
  assert (Hy : YearFromDay d = ym) by (apply YearFromDay_offset, Hk).
  unfold DateFromTime, MonthFromTime, DayWithinYear, InLeapYear, YearFromTime.
  rewrite Day_of_day, Hy. unfold d.
  replace (DayFromYear ym + month_start mn (DaysInYear ym - 365) - DayFromYear ym)
    with (month_start mn (DaysInYear ym - 365)) by lia.
  split; [reflexivity |].
  unfold DaysInYear.
  destruct (isLeapYear ym);
    repeat (destruct Hc as [-> | Hc]); try subst mn; split; reflexivity.
Qed.

(** the years whose twelve months all fit the range of time values *)
Lemma last_day_in_range y m :
  1 <= m <= 12 -> -271820 <= y <= 275759 ->
  Z.abs (last_day y m * msPerDay + MakeTime0) <= 8640000000000000.
Proof.
  intros Hm Hy. rewrite last_day_offset by exact Hm.
  pose proof (last_day_in_year y m Hm) as Hk.
  pose proof (DayFromYear_mono (-271820) y ltac:(lia)) as Hlo.
  pose proof (DayFromYear_mono (y + 1) 275760 ltac:(lia)) as Hhi.
  rewrite DayFromYear_succ in Hhi.
  change (DayFromYear (-271820)) with (-99999744) in Hlo.
  change (DayFromYear 275760) with 99999744 in Hhi.
  unfold msPerDay, MakeTime0. lia.
Qed.

End MonthFacts.

(** ** Dates built by the program *)

Section DateObjects.
Import DateMath DateFacts MonthFacts.

Variable host : Host.

Lemma Qtrunc_inject_Z z : Qtrunc (inject_Z z) = z.
Proof. unfold Qtrunc, inject_Z; cbn [Qnum Qden]. apply Z.quot_1_r. Qed.

Lemma finite_int_num z : finite_int (num z) = Some z.
Proof. unfold finite_int, num. now rewrite Qtrunc_inject_Z. Qed.

Lemma MakeFullYear_num y : MakeFullYear (num y) = num (full_year y).
Proof.
  unfold MakeFullYear, num at 1, full_year. rewrite Qtrunc_inject_Z.
  destruct ((0 <=? y) && (y <=? 99)); reflexivity.
Qed.

Lemma full_year_range y :
  -271820 <= y <= 275759 -> -271820 <= full_year y <= 275759.
Proof.
  unfold full_year. intros H.
  destruct (Z.leb_spec 0 y); destruct (Z.leb_spec y 99); cbn [andb]; lia.
Qed.

(** [new Date(y, m, 0)] for integers [y] and [m] *)
Lemma new_Date_day_zero y m :
  DateValue (new_Date host (vnum y) (vnum m) (vnum 0))
  = TimeClip (Some (last_day (full_year y) m * msPerDay + MakeTime0)).
Proof.
  unfold new_Date, vnum; cbn [DateValue ToNumber].
  rewrite MakeFullYear_num. unfold MakeDay. rewrite !finite_int_num.
  reflexivity.
Qed.

(** the count of days of a month of the year the constructor works with *)
Lemma getDaysInMonth_full y m :
  1 <= m <= 12 -> -271820 <= y <= 275759 ->
  getDaysInMonth host (vnum y) (vnum m) = num (gregorian_days (full_year y) m).
Proof.
  intros Hm Hy. unfold getDaysInMonth, getDate.
  rewrite new_Date_day_zero. unfold TimeClip.
  pose proof (last_day_in_range (full_year y) m Hm (full_year_range y Hy)) as Hr.
  apply Z.leb_le in Hr. rewrite Hr. unfold LocalTime, MakeTime0.
  rewrite Z.add_0_r.
  now destruct (last_day_date (full_year y) m Hm) as [_ ->].
Qed.

(** past the range of time values the date is invalid *)
Lemma getDaysInMonth_300000 : getDaysInMonth host (vnum 300000) (vnum 1) = NaN.
Proof. reflexivity. Qed.

Lemma getDate_cases d : getDate d = NaN \/ exists k, getDate d = num k.
Proof. unfold getDate. destruct (DateValue d); eauto. Qed.

Lemma getFullYear_cases d : getFullYear d = NaN \/ exists k, getFullYear d = num k.
Proof. unfold getFullYear. destruct (DateValue d); eauto. Qed.

Lemma num_leb_num a b : num_leb (num a) (num b) = (a <=? b).
Proof.
  unfold num_leb, num, Qle_bool, inject_Z; cbn [Qnum Qden].
  now rewrite !Z.mul_1_r.
Qed.

Lemma loop_bound_num n : loop_bound (num n) = Z.to_nat n.
Proof. unfold loop_bound, num. now rewrite Qfloor_Z. Qed.

(** *** The loop of listDaysInMonth *)

Lemma days_from_length from n : List.length (days_from from n) = n.
Proof. revert from. induction n as [| n IH]; intros from; cbn; [| rewrite IH]; reflexivity. Qed.

(** while the days stay within the bound, every turn of the loop pushes
    the formatted day *)
Lemma days_loop_run n month year (k : nat) :
  forall day dates,
    day + Z.of_nat k - 1 <= n ->
    days_loop host k day (num n) month year dates
    = dates ++ map (format_day host month year) (days_from day k).
Proof.
  induction k as [| k IH]; intros day dates Hk.
  - cbn. now rewrite app_nil_r.
  - cbn [days_loop days_from map]. rewrite num_leb_num.
    destruct (Z.leb_spec day n) as [_ | Hgt]; [| lia].
    rewrite IH by lia. rewrite <- app_assoc. reflexivity.
Qed.

(** past the bound the loop is left at once, whatever fuel remains *)
Lemma days_loop_done n month year k day dates :
  n < day -> days_loop host k day (num n) month year dates = dates.
Proof.
  intros Hlt. destruct k as [| k]; [reflexivity |].
  cbn [days_loop]. rewrite num_leb_num.
  destruct (Z.leb_spec day n); [lia | reflexivity].
Qed.

Lemma days_loop_NaN month year k day dates :
  days_loop host k day NaN month year dates = dates.
Proof. destruct k; reflexivity. Qed.

Lemma days_loop_more n month year (k : nat) :
  forall extra day dates,
    day + Z.of_nat k - 1 = Z.max n (day - 1) ->
    days_loop host (k + extra) day (num n) month year dates
    = days_loop host k day (num n) month year dates.
Proof.
  induction k as [| k IH]; intros extra day dates Hk.
  - cbn [Nat.add]. rewrite (days_loop_done n month year extra) by lia. reflexivity.
  - cbn [Nat.add days_loop]. rewrite num_leb_num.
    destruct (Z.leb_spec day n) as [Hle | Hgt]; [| reflexivity].
    apply IH. lia.
Qed.

(** the loop ends on its own test: fuel beyond [loop_bound] changes nothing *)
Lemma listDaysInMonth_fuel month year extra :
  let n := getDate (new_Date host year month (vnum 0)) in
  days_loop host (loop_bound n + extra) 1 n month year []
  = listDaysInMonth host month year.
Proof.
  unfold listDaysInMonth. cbv zeta.
  destruct (getDate_cases (new_Date host year month (vnum 0))) as [-> | [k ->]].
  - now rewrite !days_loop_NaN.
  - rewrite loop_bound_num. apply days_loop_more. lia.
Qed.

(** listDaysInMonth: the formatted days 1, 2, ... up to the count that
    getDaysInMonth computes *)
Lemma listDaysInMonth_map month year :
  listDaysInMonth host month year
  = map (format_day host month year)
      (days_from 1 (loop_bound (getDaysInMonth host year month))).
Proof.
  unfold listDaysInMonth, getDaysInMonth. cbv zeta.
  destruct (getDate_cases (new_Date host year month (vnum 0))) as [-> | [k ->]].
  - reflexivity.
  - rewrite loop_bound_num. destruct (Z.le_gt_cases 0 k) as [Hk | Hk].
    + rewrite days_loop_run by lia. reflexivity.
    + replace (Z.to_nat k) with O by lia. reflexivity.
Qed.

Lemma listDaysInMonth_length month year :
  List.length (listDaysInMonth host month year)
  = loop_bound (getDaysInMonth host year month).
Proof. now rewrite listDaysInMonth_map, length_map, days_from_length. Qed.

End DateObjects.

(** ** Objects built by an object literal with a spread *)

Section Objects.

Lemma obj_set_fresh k v o :
  ~ In k (keys o) -> obj_set k v o = o ++ [(k, v)].
Proof.
  induction o as [| [k' v'] r IH]; cbn; intros Hk.
  - reflexivity.
  - destruct (String.eqb_spec k k') as [-> | Hne].
    + exfalso. apply Hk. now left.
    + rewrite IH; [reflexivity |]. intros Hin. apply Hk. now right.
Qed.

Lemma keys_app (a b : CalendarYear) : keys (a ++ b) = keys a ++ keys b.
Proof. unfold keys. apply map_app. Qed.

(** spreading an object with distinct keys, none of them present yet,
    appends its properties in their order *)
Lemma obj_spread_fresh src :
  forall dst,
    NoDup (keys src) ->
    (forall k, In k (keys src) -> ~ In k (keys dst)) ->
    obj_spread src dst = dst ++ src.
Proof.
  induction src as [| [k v] r IH]; intros dst Hnd Hfresh.
  - cbn. now rewrite app_nil_r.
  - cbn in Hnd. inversion Hnd as [| ? ? Hk Hr]; subst.
    unfold obj_spread. cbn [fold_left fst snd].
    fold (obj_spread r (obj_set k v dst)).
    rewrite obj_set_fresh by (apply Hfresh; now left).
    rewrite IH.
    + now rewrite <- app_assoc.
    + exact Hr.
    + intros k' Hin. rewrite keys_app. cbn. intros Hin'.
      apply in_app_or in Hin'. destruct Hin' as [Hd | [-> | []]].
      * apply (Hfresh k'); [now right | exact Hd].
      * now apply Hk.
Qed.

Variable host : Host.

(** one turn of reduceRight puts the month in front of the months
    collected so far *)
Lemma month_entry_cons names year collector current :
  NoDup (keys collector) ->
  ~ In (toLowerCase current) (keys collector) ->
  month_entry host names year collector current
  = (toLowerCase current, month_record host names year current) :: collector.
Proof.
  intros Hnd Hk. unfold month_entry. cbn [obj_set].
  rewrite obj_spread_fresh; [reflexivity | exact Hnd |].
  intros k Hin [<- | []]. now apply Hk.
Qed.

Lemma reduceRight_months names year l :
  NoDup (map toLowerCase l) ->
  reduceRight (month_entry host names year) [] l
  = map (fun current => (toLowerCase current, month_record host names year current)) l.
Proof.
  induction l as [| a l IH]; intros Hnd.
  - reflexivity.
  - cbn in Hnd. inversion Hnd as [| ? ? Ha Hl]; subst.
    unfold reduceRight in *. cbn [fold_right map]. rewrite (IH Hl).
    apply month_entry_cons.
    + unfold keys. rewrite map_map. cbn [fst]. exact Hl.
    + unfold keys. rewrite map_map. cbn [fst]. exact Ha.
Qed.

Lemma months_en_lower :
  map toLowerCase months_en
  = ["january"; "february"; "march"; "april"; "may"; "june"; "july";
     "august"; "september"; "october"; "november"; "december"].
Proof. reflexivity. Qed.

Lemma months_en_distinct : NoDup (map toLowerCase months_en).
Proof.
  rewrite months_en_lower.
  repeat (constructor; [cbn; intuition discriminate |]). constructor.
Qed.

(** the object the calendar branch builds from the English months *)
Lemma build_calendar_en year :
  build_calendar host months_en year
  = map (fun current => (toLowerCase current, month_record host months_en year current))
      months_en.
Proof. apply reduceRight_months, months_en_distinct. Qed.

Lemma keys_build_calendar_en year :
  keys (build_calendar host months_en year) = map toLowerCase months_en.
Proof.
  rewrite build_calendar_en. unfold keys. rewrite map_map. reflexivity.
Qed.

End Objects.

(** ** The validator and the guard *)

Section Validation.

Variable host : Host.

(** a Number has no [length]: the read gives undefined, which is not 4 *)
Lemma number_length_is_not_4 n :
  get_length (VNumber n) = Normal VUndefined /\
  strict_neqb VUndefined (vnum 4) = true.
Proof. split; reflexivity. Qed.

Lemma isValidYear_false year : isValidYear host year = Normal false.
Proof.
  unfold isValidYear.
  destruct (getFullYear_cases (new_Date host year (vnum 1) (vnum 1))) as [-> | [k ->]];
    reflexivity.
Qed.

Lemma getCalendarYear_with_invalid valid st year :
  valid year = Normal false ->
  getCalendarYear_with host valid st year = Normal (Invalid (error_object host year)).
Proof. intros H. unfold getCalendarYear_with. rewrite H. reflexivity. Qed.

Lemma getCalendarYear_with_valid valid year :
  valid year = Normal true ->
  getCalendarYear_with host valid initial_store year
  = Normal (Calendar (build_calendar host months_en year)).
Proof. intros H. unfold getCalendarYear_with. rewrite H. reflexivity. Qed.

Lemma getCalendarYear_invalid st year :
  getCalendarYear host st year = Normal (Invalid (error_object host year)).
Proof. apply getCalendarYear_with_invalid, isValidYear_false. Qed.

Lemma bundle_getCalendarYear_throws year :
  Bundle.getCalendarYear host year = Throw ReferenceError.
Proof.
  unfold Bundle.getCalendarYear, Bundle.getCalendarYear_with.
  rewrite isValidYear_false. reflexivity.
Qed.

(** *** Text of the error *)

Lemma string_app_assoc (a b c : string) :
  ((a ++ b) ++ c = a ++ (b ++ c))%string.
Proof. induction a as [| x a IH]; cbn; [| rewrite IH]; reflexivity. Qed.

Lemma error_body_range s :
  occurs_in "between 1900 and 2100" (error_prefix ++ s ++ ".")%string.
Proof.
  exists "The argument passed to `calendar('YYYY')` must be a valid year ".
  exists (". You passed " ++ s ++ ".")%string.
  reflexivity.
Qed.

Lemma error_body_year s : occurs_in s (error_prefix ++ s ++ ".")%string.
Proof. exists error_prefix, ".". reflexivity. Qed.

(** *** No call changes the store *)

Lemma run_keeps_store c st : snd (run host c st) = st.
Proof. destruct c; reflexivity. Qed.

Lemma run_all_keeps_store cs st : run_all host cs st = st.
Proof.
  revert st. induction cs as [| c cs IH]; intros st; cbn.
  - reflexivity.
  - rewrite run_keeps_store. apply IH.
Qed.

End Validation.

(** ** Dates in any time zone *)

Section ZonedDates.
Import DateMath DateFacts MonthFacts.

Variable tz : Zoned.TimeZone.
Variable host : Host.

Lemma gregorian_days_bounds y m : 1 <= m <= 12 -> 28 <= gregorian_days y m <= 31.
Proof.
  intros Hm. month_cases m Hc. unfold gregorian_days.
  destruct (leap_year y); repeat (destruct Hc as [-> | Hc]); try subst m; lia.
Qed.

(** the date of a time depends on its day only *)
Lemma DateFromTime_Day t1 t2 : Day t1 = Day t2 -> DateFromTime t1 = DateFromTime t2.
Proof.
  intros H. unfold DateFromTime, MonthFromTime, DayWithinYear, InLeapYear, YearFromTime.
  now rewrite H.
Qed.

Lemma last_day_bounds y m :
  1 <= m <= 12 -> -271820 <= y <= 275759 ->
  -99999744 <= last_day y m <= 99999744.
Proof.
  intros Hm Hy. rewrite last_day_offset by exact Hm.
  pose proof (last_day_in_year y m Hm) as Hk.
  pose proof (DayFromYear_mono (-271820) y ltac:(lia)) as Hlo.
  pose proof (DayFromYear_mono (y + 1) 275760 ltac:(lia)) as Hhi.
  rewrite DayFromYear_succ in Hhi.
  change (DayFromYear (-271820)) with (-99999744) in Hlo.
  change (DayFromYear 275760) with 99999744 in Hhi. lia.
Qed.

(** on a host that keeps the last day of the month, the count is the
    length of the month *)
Lemma zoned_getDaysInMonth_full y m :
  1 <= m <= 12 -> -271820 <= y <= 275759 ->
  Zoned.keeps_day tz (last_day (full_year y) m) ->
  Zoned.getDaysInMonth tz host (vnum y) (vnum m) = num (gregorian_days (full_year y) m).
Proof.
  intros Hm Hy [Hoff Hday].
  pose proof (last_day_bounds (full_year y) m Hm (full_year_range y Hy)) as Hb.
  unfold Zoned.getDaysInMonth, Zoned.getDate, Zoned.new_Date, vnum.
  cbn [DateValue ToNumber].
  rewrite MakeFullYear_num. unfold MakeDay. rewrite !finite_int_num.
  fold (last_day (full_year y) m).
  unfold MakeDate, Zoned.UTC, TimeClip, MakeTime0. rewrite !Z.add_0_r.
  set (d := last_day (full_year y) m) in *.
  destruct (Z.leb_spec
              (Z.abs (d * msPerDay - Zoned.offset_of_local tz (d * msPerDay)))
              8640000000000000) as [_ | Hbad];
    [| unfold msPerDay in *; lia].
  f_equal. rewrite (DateFromTime_Day _ (d * msPerDay)).
  - subst d. now destruct (last_day_date (full_year y) m Hm) as [_ ->].
  - rewrite Hday. symmetry. apply Day_of_day.
Qed.

Lemma zoned_days_loop_run n month year (k : nat) :
  forall day dates,
    day + Z.of_nat k - 1 <= n ->
    Zoned.days_loop tz host k day (num n) month year dates
    = dates ++ map (fun d => Zoned.formatDate tz host month (vnum d) year None)
                 (days_from day k).
Proof.
  induction k as [| k IH]; intros day dates Hk.
  - cbn. now rewrite app_nil_r.
  - cbn [Zoned.days_loop days_from map]. rewrite num_leb_num.
    destruct (Z.leb_spec day n) as [_ | Hgt]; [| lia].
    rewrite IH by lia. rewrite <- app_assoc. reflexivity.
Qed.

(** listDaysInMonth when the count is a number *)
Lemma zoned_listDaysInMonth_map month year n :
  0 <= n ->
  Zoned.getDaysInMonth tz host year month = num n ->
  Zoned.listDaysInMonth tz host month year
  = map (fun d => Zoned.formatDate tz host month (vnum d) year None)
      (days_from 1 (Z.to_nat n)).
Proof.
  intros Hn E. unfold Zoned.listDaysInMonth. cbv zeta.
  unfold Zoned.getDaysInMonth in E. rewrite E, loop_bound_num.
  rewrite zoned_days_loop_run by lia. reflexivity.
Qed.

End ZonedDates.

(** *** The zone UTC *)

Section ZoneUTC.
Import DateMath.
Variable host : Host.


Lemma utc_new_Date year month date :
  Zoned.new_Date Zoned.utc host year month date = new_Date host year month date.
Proof.
  unfold Zoned.new_Date, new_Date, Zoned.UTC, UTC.
  destruct (MakeDate _ _) as [v |]; [| reflexivity].
  cbn [Zoned.utc Zoned.offset_of_local]. now rewrite Z.sub_0_r.
Qed.

(** in the zone UTC the functions are those of the section Program *)
Lemma utc_getDaysInMonth year month :
  Zoned.getDaysInMonth Zoned.utc host year month = getDaysInMonth host year month.
Proof.
  unfold Zoned.getDaysInMonth, getDaysInMonth. rewrite utc_new_Date.
  unfold Zoned.getDate, getDate, Zoned.LocalTime, LocalTime.
  destruct (DateValue _); [| reflexivity].
  cbn [Zoned.utc Zoned.offset_of_utc]. now rewrite Z.add_0_r.
Qed.

Lemma utc_formatDate month day year loc :
  Zoned.formatDate Zoned.utc host month day year loc = formatDate host month day year loc.
Proof. unfold Zoned.formatDate, formatDate. now rewrite utc_new_Date. Qed.

Lemma utc_days_loop k : forall day n month year dates,
  Zoned.days_loop Zoned.utc host k day n month year dates
  = days_loop host k day n month year dates.
Proof.
  induction k as [| k IH]; intros; cbn [Zoned.days_loop days_loop]; [reflexivity |].
  destruct (num_leb (num day) n); [| reflexivity].
  now rewrite IH, utc_formatDate.
Qed.

Lemma utc_listDaysInMonth month year :
  Zoned.listDaysInMonth Zoned.utc host month year = listDaysInMonth host month year.
Proof.
  unfold Zoned.listDaysInMonth, listDaysInMonth. cbv zeta.
  rewrite utc_new_Date, utc_days_loop.
  replace (Zoned.getDate Zoned.utc (new_Date host year month (vnum 0)))
    with (getDate (new_Date host year month (vnum 0))); [reflexivity |].
  unfold Zoned.getDate, getDate, Zoned.LocalTime, LocalTime.
  destruct (DateValue _); [| reflexivity].
  cbn [Zoned.utc Zoned.offset_of_utc]. now rewrite Z.add_0_r.
Qed.

End ZoneUTC.

(** * The claims *)

(** C1: the claim asks for a calendar of twelve months for every year
    from 1900 to 2100.  At 2023 getCalendarYear returns the error object
    instead; and the calendar expression behind the guard pairs the count
    28 of February with a collection of 31 strings, because listDaysInMonth
    is called with the year where it expects the month. *)
Theorem getCalendarYear_2023_rejected (host : Host) :
  getCalendarYear host initial_store (vnum 2023)
  = Normal (Invalid (error_object host (vnum 2023)))
  /\ exists c : list string,
       In ("february", {| count := num 28; collection := c |})
          (build_calendar host months_en (vnum 2023))
       /\ List.length c = 31%nat.
Proof.
  split; [apply getCalendarYear_invalid |].
  exists (listDaysInMonth host (vnum 2023) (vnum 2)). split.
  - rewrite build_calendar_en. unfold months_en at 2. cbn [map In].
    right; left. unfold month_record.
    change (indexOf months_en "February" + 1) with 2.
    rewrite getDaysInMonth_full by lia. reflexivity.
  - rewrite listDaysInMonth_length.
    change (getDaysInMonth host (vnum 2) (vnum 2023)) with (num 31).
    now rewrite loop_bound_num.
Qed.

(** C2: the claim has isValidYear accept a year whose read-back year is a
    number with a four-character decimal text.  2023 is such a year (the
    validator worded after the specification accepts it), and isValidYear
    returns false on it. *)
Theorem isValidYear_2023_differs (host : Host) :
  isValidYear host (vnum 2023) = Normal false
  /\ isValidYear_spec host (vnum 2023) = true
  /\ getFullYear (new_Date host (vnum 2023) (vnum 1) (vnum 1)) = num 2023
  /\ NumberToString host (num 2023) = "2023".
Proof. repeat split; reflexivity. Qed.

(** C3: isValidYear returns false for every input, because [length] is
    read from the numeric year, where it is undefined and so differs from
    4; hence getCalendarYear returns the error object for every input and
    never a calendar. *)
Theorem isValidYear_always_false (host : Host) (st : Store) (year : value) :
  isValidYear host year = Normal false
  /\ (forall n : number,
        get_length (VNumber n) = Normal VUndefined
        /\ strict_neqb VUndefined (vnum 4) = true)
  /\ getCalendarYear host st year = Normal (Invalid (error_object host year))
  /\ (forall c : CalendarYear, getCalendarYear host st year <> Normal (Calendar c)).
Proof.
  split; [apply isValidYear_false |].
  split; [intros n; apply number_length_is_not_4 |].
  split; [apply getCalendarYear_invalid |].
  intros c. rewrite getCalendarYear_invalid. discriminate.
Qed.

(** C4: in the bundle's getCalendarYear the guard is inverted.  Whatever
    the validator answers, the bundle returns the error object when the
    answer is true and goes on to the calendar expression when it is false,
    the opposite of utils/getCalendarYear.js. *)
Theorem bundle_guard_inverted (host : Host) (valid : value -> completion bool)
    (year : value) (ok : bool) :
  valid year = Normal ok ->
  Bundle.getCalendarYear_with host valid year
  = (if ok then Normal (Invalid (error_object host year))
     else names <- Bundle.months ;; Normal (Calendar (build_calendar host names year)))
  /\ getCalendarYear_with host valid initial_store year
     = (if ok then Normal (Calendar (build_calendar host months_en year))
        else Normal (Invalid (error_object host year))).
Proof.
  intros H. unfold Bundle.getCalendarYear_with, getCalendarYear_with.
  rewrite H. destruct ok; split; reflexivity.
Qed.

Lemma bundle_guard_inverted_witness :
  isValidYear SampleHost.host (vnum 2023) = Normal false
  /\ Bundle.getCalendarYear SampleHost.host (vnum 2023) = Throw ReferenceError
  /\ getCalendarYear SampleHost.host initial_store (vnum 2023)
     = Normal (Invalid (error_object SampleHost.host (vnum 2023))).
Proof.
  split; [reflexivity |].
  exact (bundle_guard_inverted SampleHost.host (isValidYear SampleHost.host)
           (vnum 2023) false eq_refl).
Defined.

(** C5: when validation fails, getCalendarYear returns (and does not throw)
    an object [{error: {body}}] whose body is the fixed text followed by the
    year in its string form and a full stop; the body holds both
    "between 1900 and 2100" and the text of the year.  getCalendarYear is
    [getCalendarYear_with] at the validator isValidYear. *)
Theorem invalid_year_error_object (host : Host) (valid : value -> completion bool)
    (st : Store) (year : value) :
  valid year = Normal false ->
  exists text : string,
    getCalendarYear_with host valid st year
    = Normal (Invalid {| error := {| body := text |} |})
    /\ text = ("The argument passed to `calendar('YYYY')` must be a valid year between 1900 and 2100. You passed "
               ++ ToString host year ++ ".")%string
    /\ occurs_in "between 1900 and 2100" text
    /\ occurs_in (ToString host year) text.
Proof.
  intros H. exists (error_prefix ++ ToString host year ++ ".")%string.
  split; [apply getCalendarYear_with_invalid, H |].
  split; [reflexivity |].
  split; [apply error_body_range | apply error_body_year].
Qed.

Lemma invalid_year_error_object_witness :
  isValidYear SampleHost.host (vnum 1899) = Normal false
  /\ exists text : string,
       getCalendarYear SampleHost.host initial_store (vnum 1899)
       = Normal (Invalid {| error := {| body := text |} |})
       /\ text = ("The argument passed to `calendar('YYYY')` must be a valid year between 1900 and 2100. You passed "
                  ++ "1899" ++ ".")%string
       /\ occurs_in "between 1900 and 2100" text
       /\ occurs_in "1899" text.
Proof.
  split; [reflexivity |].
  exact (invalid_year_error_object SampleHost.host (isValidYear SampleHost.host)
           initial_store (vnum 1899) eq_refl).
Defined.

(** C6: whenever getCalendarYear (at whatever validator) returns a
    calendar, the object has exactly 12 keys, the lower-cased English month
    names, and they come in calendar order, january first and december
    last, although reduceRight visits December first. *)
Theorem calendar_keys_in_order (host : Host) (valid : value -> completion bool)
    (year : value) (c : CalendarYear) :
  getCalendarYear_with host valid initial_store year = Normal (Calendar c) ->
  keys c = map toLowerCase months_en
  /\ keys c = ["january"; "february"; "march"; "april"; "may"; "june"; "july";
               "august"; "september"; "october"; "november"; "december"]
  /\ List.length (keys c) = 12%nat
  /\ NoDup (keys c).
Proof.
  intros H.
  assert (Hc : c = build_calendar host months_en year).
  { destruct (valid year) as [[|] | e] eqn:E.
    - rewrite (getCalendarYear_with_valid host valid year E) in H. congruence.
    - rewrite (getCalendarYear_with_invalid host valid _ year E) in H. discriminate.
    - unfold getCalendarYear_with in H. rewrite E in H. discriminate. }
  subst c. rewrite keys_build_calendar_en.
  split; [reflexivity |]. split; [apply months_en_lower |].
  split; [reflexivity | apply months_en_distinct].
Qed.

Lemma calendar_keys_in_order_witness :
  getCalendarYear_with SampleHost.host (fun _ => Normal true) initial_store (vnum 2023)
  = Normal (Calendar (build_calendar SampleHost.host months_en (vnum 2023)))
  /\ keys (build_calendar SampleHost.host months_en (vnum 2023))
     = ["january"; "february"; "march"; "april"; "may"; "june"; "july";
        "august"; "september"; "october"; "november"; "december"].
Proof.
  split; [reflexivity |].
  exact (proj1 (proj2 (calendar_keys_in_order SampleHost.host (fun _ => Normal true)
                         (vnum 2023) _ eq_refl))).
Defined.

(** C7, as stated: the length of listDaysInMonth(month, year) is the
    number of days that getDaysInMonth computes, for every year.  For
    January of the year 300000 the date is invalid: getDaysInMonth gives
    NaN, the month has 31 days, and the list is empty.  And on a host whose
    zone skipped 31 December 1994, the list for December 1994 has one
    entry where the month has 31 days. *)
Lemma listDaysInMonth_300000_empty :
  getDaysInMonth SampleHost.host (vnum 300000) (vnum 1) = NaN
  /\ gregorian_days 300000 1 = 31
  /\ listDaysInMonth SampleHost.host (vnum 1) (vnum 300000) = []
  /\ num (Z.of_nat (List.length (listDaysInMonth SampleHost.host (vnum 1) (vnum 300000))))
     <> getDaysInMonth SampleHost.host (vnum 300000) (vnum 1)
  /\ gregorian_days 1994 12 = 31
  /\ List.length
       (Zoned.listDaysInMonth Zoned.line_islands SampleHost.host (vnum 12) (vnum 1994))
     = 1%nat.
Proof.
  split; [reflexivity |]. split; [reflexivity |]. split; [reflexivity |].
  split; [vm_compute; discriminate |]. split; reflexivity.
Qed.

(** C7, amended: on a host that keeps the last day of the month (the
    offset its time zone takes for local midnight of that day is at most a
    day, and that midnight, taken to UTC and back, is a time of that day),
    for every month from 1 to 12 and every integer year from -271820 to
    275759, listDaysInMonth(month, year) is the list of the dates formatted
    by formatDate with the default locale for the days 1, 2, ... in
    ascending order, one for each day of the month, and its length is the
    count that getDaysInMonth computes; on such a host
    listDaysInMonth(2, 2024) has length 29 and listDaysInMonth(2, 2023) has
    length 28. *)
Theorem listDaysInMonth_days (tz : Zoned.TimeZone) (host : Host) :
  (forall y m : Z,
     1 <= m <= 12 -> -271820 <= y <= 275759 ->
     Zoned.keeps_day tz (last_day (full_year y) m) ->
     Zoned.listDaysInMonth tz host (vnum m) (vnum y)
     = map (fun d => Zoned.formatDate tz host (vnum m) (vnum d) (vnum y) None)
         (days_from 1 (Z.to_nat (gregorian_days (full_year y) m)))
     /\ Zoned.getDaysInMonth tz host (vnum y) (vnum m)
        = num (Z.of_nat (List.length (Zoned.listDaysInMonth tz host (vnum m) (vnum y))))
     /\ List.length (Zoned.listDaysInMonth tz host (vnum m) (vnum y))
        = Z.to_nat (gregorian_days (full_year y) m))
  /\ (Zoned.keeps_day tz (last_day 2024 2) ->
      List.length (Zoned.listDaysInMonth tz host (vnum 2) (vnum 2024)) = 29%nat)
  /\ (Zoned.keeps_day tz (last_day 2023 2) ->
      List.length (Zoned.listDaysInMonth tz host (vnum 2) (vnum 2023)) = 28%nat).
Proof.
  assert (G : forall y m : Z,
             1 <= m <= 12 -> -271820 <= y <= 275759 ->
             Zoned.keeps_day tz (last_day (full_year y) m) ->
             Zoned.listDaysInMonth tz host (vnum m) (vnum y)
             = map (fun d => Zoned.formatDate tz host (vnum m) (vnum d) (vnum y) None)
                 (days_from 1 (Z.to_nat (gregorian_days (full_year y) m)))).
  { intros y m Hm Hy Hk. apply zoned_listDaysInMonth_map.
    - pose proof (gregorian_days_bounds (full_year y) m Hm). lia.
    - now apply zoned_getDaysInMonth_full. }
  split; [| split; intros Hk;
            [rewrite (G 2024 2) | rewrite (G 2023 2)]; try lia; try exact Hk;
            now rewrite length_map, days_from_length].
  intros y m Hm Hy Hk.
  pose proof (gregorian_days_bounds (full_year y) m Hm) as Hb.
  split; [now apply G |].
  rewrite (G y m Hm Hy Hk), length_map, days_from_length.
  split; [| reflexivity].
  rewrite zoned_getDaysInMonth_full by assumption. f_equal. lia.
Qed.

Lemma listDaysInMonth_days_witness :
  1 <= 2 <= 12 /\ -271820 <= 2024 <= 275759
  /\ Zoned.keeps_day Zoned.utc (last_day (full_year 2024) 2)
  /\ List.length (Zoned.listDaysInMonth Zoned.utc SampleHost.host (vnum 2) (vnum 2024))
     = 29%nat
  /\ hd "" (Zoned.listDaysInMonth Zoned.utc SampleHost.host (vnum 2) (vnum 2024))
     = "02/01/2024".
Proof.
  assert (K : Zoned.keeps_day Zoned.utc (last_day (full_year 2024) 2))
    by (split; [vm_compute; discriminate | reflexivity]).
  split; [lia |]. split; [lia |]. split; [exact K |].
  destruct (proj1 (listDaysInMonth_days Zoned.utc SampleHost.host) 2024 2
              ltac:(lia) ltac:(lia) K) as (Hl & _ & Hn).
  split; [exact Hn |]. rewrite Hl. reflexivity.
Defined.

(** C8, as stated: getDaysInMonth returns the number of days of the month
    in the proleptic Gregorian calendar.  The year 0 is a leap year there
    (it is divisible by 400), so its February has 29 days; the Date
    constructor reads the year 0 as 1900 and getDaysInMonth(0, 2) is 28.
    For the year 300000, past the last valid date, the result is NaN.  And
    on a host whose zone skipped 31 December 1994, getDaysInMonth(1994, 12)
    is 1 where the month has 31 days. *)
Lemma getDaysInMonth_year_0 :
  getDaysInMonth SampleHost.host (vnum 0) (vnum 2) = num 28
  /\ gregorian_days 0 2 = 29
  /\ getDaysInMonth SampleHost.host (vnum 0) (vnum 2) <> num (gregorian_days 0 2)
  /\ getDaysInMonth SampleHost.host (vnum 300000) (vnum 2) = NaN
  /\ gregorian_days 1994 12 = 31
  /\ Zoned.getDaysInMonth Zoned.line_islands SampleHost.host (vnum 1994) (vnum 12)
     = num 1.
Proof.
  split; [reflexivity |]. split; [reflexivity |].
  split; [vm_compute; discriminate |]. split; [reflexivity |]. split; reflexivity.
Qed.

(** C8, amended: on a host that keeps the last day of the month (the
    offset its time zone takes for local midnight of that day is at most a
    day, and that midnight, taken to UTC and back, is a time of that day),
    for every month from 1 to 12 and every integer year from -271820 to
    275759, getDaysInMonth(year, month) is the number of days of that month
    in the proleptic Gregorian calendar, leap years included (February has
    29 days when the year is divisible by 4, except when divisible by 100
    unless also divisible by 400), where a year from 0 to 99 is read as
    1900 plus that year and every other year as itself; on such a host
    getDaysInMonth(2024, 2) = 29, getDaysInMonth(1900, 2) = 28 and
    getDaysInMonth(2000, 2) = 29. *)
Theorem getDaysInMonth_gregorian (tz : Zoned.TimeZone) (host : Host) :
  (forall y m : Z,
     1 <= m <= 12 -> -271820 <= y <= 275759 ->
     Zoned.keeps_day tz (last_day (full_year y) m) ->
     Zoned.getDaysInMonth tz host (vnum y) (vnum m)
     = num (gregorian_days (full_year y) m)
     /\ (0 <= y <= 99 -> full_year y = 1900 + y)
     /\ (~ 0 <= y <= 99 -> full_year y = y)
     /\ gregorian_days (full_year y) 2
        = (if (Z.rem (full_year y) 4 =? 0)
              && (negb (Z.rem (full_year y) 100 =? 0) || (Z.rem (full_year y) 400 =? 0))
           then 29 else 28))
  /\ (Zoned.keeps_day tz (last_day 2024 2) ->
      Zoned.getDaysInMonth tz host (vnum 2024) (vnum 2) = num 29)
  /\ (Zoned.keeps_day tz (last_day 1900 2) ->
      Zoned.getDaysInMonth tz host (vnum 1900) (vnum 2) = num 28)
  /\ (Zoned.keeps_day tz (last_day 2000 2) ->
      Zoned.getDaysInMonth tz host (vnum 2000) (vnum 2) = num 29).
Proof.
  split; [| repeat split; intros Hk;
            rewrite zoned_getDaysInMonth_full by (try lia; exact Hk); reflexivity].
  intros y m Hm Hy Hk. split; [now apply zoned_getDaysInMonth_full |].
  unfold full_year.
  destruct (Z.leb_spec 0 y); destruct (Z.leb_spec y 99); cbn [andb];
    repeat split; intros; try lia; reflexivity.
Qed.

Lemma getDaysInMonth_gregorian_witness :
  1 <= 2 <= 12 /\ -271820 <= 1600 <= 275759
  /\ Zoned.keeps_day Zoned.utc (last_day (full_year 1600) 2)
  /\ Zoned.getDaysInMonth Zoned.utc SampleHost.host (vnum 1600) (vnum 2) = num 29.
Proof.
  assert (K : Zoned.keeps_day Zoned.utc (last_day (full_year 1600) 2))
    by (split; [vm_compute; discriminate | reflexivity]).
  split; [lia |]. split; [lia |]. split; [exact K |].
  exact (proj1 (proj1 (getDaysInMonth_gregorian Zoned.utc SampleHost.host) 1600 2
                  ltac:(lia) ltac:(lia) K)).
Defined.

(** C9: the locale table maps en to the twelve English month names and es
    to the twelve Spanish ones, both in calendar order, and has no other
    entry; no exported operation, and no sequence of them, changes the
    store that holds the table. *)
Theorem locale_table_fixed :
  locale initial_store
  = [("en", {| months := ["January"; "February"; "March"; "April"; "May"; "June";
                          "July"; "August"; "September"; "October"; "November";
                          "December"] |});
     ("es", {| months := ["enero"; "febrero"; "marzo"; "abril"; "mayo"; "junio";
                          "julio"; "agosto"; "septiembre"; "octubre"; "noviembre";
                          "diciembre"] |})]
  /\ (forall (code : string) (e : LocaleEntry),
        lookup_locale code (locale initial_store) = Some e ->
        List.length (months e) = 12%nat)
  /\ (forall (host : Host) (c : call) (st : Store), snd (run host c st) = st)
  /\ (forall (host : Host) (cs : list call) (st : Store), run_all host cs st = st).
Proof.
  split; [reflexivity |]. split.
  - intros code e. cbn [lookup_locale locale initial_store].
    destruct (String.eqb code "en"); [intros [= <-]; reflexivity |].
    destruct (String.eqb code "es"); [intros [= <-]; reflexivity | discriminate].
  - split; [apply run_keeps_store | apply run_all_keeps_store].
Qed.

Lemma locale_table_fixed_witness :
  lookup_locale "es" (locale initial_store) = Some {| months := months_es |}
  /\ List.length months_es = 12%nat.
Proof.
  split; [reflexivity |].
  exact (proj1 (proj2 locale_table_fixed) "es" {| months := months_es |} eq_refl).
Defined.

(** C10: getCalendarYear is deterministic in its argument: with the same
    host, a second call with the same year gives the same completion as the
    first, whether it follows at once or after any other calls. *)
Theorem getCalendarYear_deterministic (host : Host) (st : Store) (year : value)
    (between : list call) :
  fst (run host (CallGetCalendarYear year)
         (snd (run host (CallGetCalendarYear year) st)))
  = fst (run host (CallGetCalendarYear year) st)
  /\ fst (run host (CallGetCalendarYear year)
            (run_all host between (snd (run host (CallGetCalendarYear year) st))))
     = fst (run host (CallGetCalendarYear year) st).
Proof.
  rewrite run_all_keeps_store, run_keeps_store. split; reflexivity.
Qed.

(** * Further properties *)

(** ** Months beyond 1..12, truncation and bounds *)

Section MoreDates.
Import DateMath DateFacts MonthFacts.
Variable host : Host.

Lemma last_day_shift y m k : last_day y (m + 12 * k) = last_day (y + k) m.
Proof.
  unfold last_day.
  replace (m + 12 * k) with (m + k * 12) by lia.
  rewrite Z.div_add, Z.mod_add by lia.
  replace (y + (m / 12 + k)) with (y + k + m / 12) by lia. reflexivity.
Qed.

(** the date of day 0 of any month, as far as it is a valid date *)
Lemma DateFromTime_last_day y m :
  exists n, 28 <= n <= 31 /\ DateFromTime (last_day y m * msPerDay) = n.
Proof.
  set (k := (m - 1) / 12). set (m' := (m - 1) mod 12 + 1).
  assert (Hm' : 1 <= m' <= 12) by (unfold m'; pose proof (Z.mod_pos_bound (m - 1) 12); lia).
  assert (Hm : m = m' + 12 * k).
  { unfold m', k. pose proof (Z.div_mod (m - 1) 12). lia. }
  rewrite Hm, last_day_shift.
  exists (gregorian_days (y + k) m'). split.
  - apply gregorian_days_bounds, Hm'.
  - apply last_day_date, Hm'.
Qed.

Lemma MakeFullYear_Fin q : MakeFullYear (Fin q) = num (full_year (Qtrunc q)).
Proof.
  unfold MakeFullYear, full_year.
  destruct ((0 <=? Qtrunc q) && (Qtrunc q <=? 99)); reflexivity.
Qed.

Lemma finite_int_MakeFullYear n :
  finite_int (MakeFullYear n)
  = match finite_int n with Some y => Some (full_year y) | None => None end.
Proof.
  destruct n as [| s | q]; try reflexivity.
  rewrite MakeFullYear_Fin, finite_int_num. reflexivity.
Qed.

(** getDaysInMonth on any two values *)
Lemma getDaysInMonth_unfold year month :
  getDaysInMonth host year month
  = match finite_int (ToNumber host year), finite_int (ToNumber host month) with
    | Some y, Some m =>
        match TimeClip (Some (last_day (full_year y) m * msPerDay + MakeTime0)) with
        | Some t => num (DateFromTime t)
        | None => NaN
        end
    | _, _ => NaN
    end.
Proof.
  unfold getDaysInMonth, getDate, new_Date. cbn [DateValue].
  unfold MakeDay. rewrite finite_int_MakeFullYear.
  change (ToNumber host (vnum 0)) with (num 0). rewrite finite_int_num.
  destruct (finite_int (ToNumber host year)) as [y |]; [| reflexivity].
  destruct (finite_int (ToNumber host month)) as [m |]; reflexivity.
Qed.

Lemma clip_last_day y m :
  1 <= m <= 12 -> -271820 <= y <= 275759 ->
  TimeClip (Some (last_day y m * msPerDay + MakeTime0)) = Some (last_day y m * msPerDay).
Proof.
  intros Hm Hy. unfold TimeClip.
  pose proof (last_day_in_range y m Hm Hy) as Hr. apply Z.leb_le in Hr. rewrite Hr.
  unfold MakeTime0. now rewrite Z.add_0_r.
Qed.

Lemma getDaysInMonth_month_overflow_aux y m k :
  1 <= m <= 12 -> -271820 <= full_year y + k <= 275759 ->
  getDaysInMonth host (vnum y) (vnum (m + 12 * k))
  = num (gregorian_days (full_year y + k) m).
Proof.
  intros Hm Hy. rewrite getDaysInMonth_unfold.
  change (ToNumber host (vnum y)) with (num y).
  change (ToNumber host (vnum (m + 12 * k))) with (num (m + 12 * k)).
  rewrite !finite_int_num, last_day_shift, clip_last_day by assumption.
  now destruct (last_day_date (full_year y + k) m Hm) as [_ ->].
Qed.

Lemma getDaysInMonth_bounds_aux year month :
  getDaysInMonth host year month = NaN
  \/ exists n, 28 <= n <= 31 /\ getDaysInMonth host year month = num n.
Proof.
  rewrite getDaysInMonth_unfold.
  destruct (finite_int (ToNumber host year)) as [y |]; [| now left].
  destruct (finite_int (ToNumber host month)) as [m |]; [| now left].
  unfold TimeClip, MakeTime0. rewrite Z.add_0_r.
  destruct (Z.abs (last_day (full_year y) m * msPerDay) <=? 8640000000000000); [| now left].
  right. destruct (DateFromTime_last_day (full_year y) m) as (n & Hn & ->). eauto.
Qed.

Lemma getDaysInMonth_not_finite year month :
  finite_int (ToNumber host year) = None \/ finite_int (ToNumber host month) = None ->
  getDaysInMonth host year month = NaN.
Proof.
  intros H. rewrite getDaysInMonth_unfold.
  destruct H as [-> | ->]; [reflexivity |].
  destruct (finite_int (ToNumber host year)); reflexivity.
Qed.

End MoreDates.

(** ** The dates formatDate builds *)

Section Formatting.
Import DateMath DateFacts MonthFacts.
Variable host : Host.


(** formatDate on any three values *)
Lemma formatDate_unfold month day year loc :
  formatDate host month day year loc
  = toLocaleDateString host
      (match finite_int (ToNumber host year),
             finite_int (num_sub (ToNumber host month) (num 1)),
             finite_int (ToNumber host day) with
       | Some y, Some m0, Some d =>
           TimeClip (Some (month_day (full_year y) (m0 + 1) d * msPerDay + MakeTime0))
       | _, _, _ => None
       end) loc.
Proof.
  unfold formatDate, new_Date. cbn [DateValue ToNumber].
  unfold MakeDay. rewrite finite_int_MakeFullYear.
  destruct (finite_int (ToNumber host year)) as [y |]; [| reflexivity].
  destruct (finite_int (num_sub (ToNumber host month) (num 1))) as [m0 |]; [| reflexivity].
  destruct (finite_int (ToNumber host day)) as [d |]; [| reflexivity].
  unfold month_day. replace (m0 + 1 - 1) with m0 by lia. reflexivity.
Qed.


Lemma month_day_offset y m d :
  1 <= m <= 12 ->
  month_day y m d = DayFromYear y + (month_start (m - 1) (DaysInYear y - 365) + d - 1).
Proof.
  intros Hm. unfold month_day.
  rewrite Z.div_small, Z.mod_small by lia. rewrite Z.add_0_r. lia.
Qed.

Lemma month_start_next y m :
  1 <= m <= 12 ->
  month_start m (DaysInYear y - 365)
  = month_start (m - 1) (DaysInYear y - 365) + gregorian_days y m.
Proof.
  intros Hm. month_cases m Hc.
  unfold gregorian_days. rewrite leap_year_isLeapYear. unfold DaysInYear.
  destruct (isLeapYear y);
    repeat (destruct Hc as [-> | Hc]); try subst m; reflexivity.
Qed.


Ltac fix_index :=
  match goal with
  | |- context [match ?a - 1 with _ => _ end] =>
      let v := eval vm_compute in (a - 1) in change (a - 1) with v
  end.

Ltac split_ltb :=
  repeat match goal with
  | |- context [?a <? ?b] => destruct (Z.ltb_spec a b); try lia
  end.

(** the day [d] of month [m] of year [y] reads back as such *)
Lemma month_day_components y m d :
  1 <= m <= 12 -> 1 <= d <= gregorian_days y m ->
  let t := month_day y m d * msPerDay in
  YearFromTime t = y /\ MonthFromTime t = m - 1 /\ DateFromTime t = d.
Proof.
  intros Hm Hd t.
  pose proof (month_start_next y m Hm) as Hnext.
  pose proof (last_day_in_year y m Hm) as Hlast.
  assert (H0 : 0 <= month_start (m - 1) (DaysInYear y - 365)).
  { month_cases m Hc.
    destruct (DaysInYear_cases y) as [-> | ->];
      repeat (destruct Hc as [-> | Hc]); try subst m; fix_month_start; lia. }
  assert (Hy : YearFromDay (month_day y m d) = y).
  { rewrite month_day_offset by exact Hm. apply YearFromDay_offset. lia. }
  assert (Hw : DayWithinYear t = month_start (m - 1) (DaysInYear y - 365) + d - 1).
  { unfold DayWithinYear, YearFromTime, t. rewrite Day_of_day, Hy.
    rewrite month_day_offset by exact Hm. lia. }
  assert (Hl : InLeapYear t = DaysInYear y - 365).
  { unfold InLeapYear, YearFromTime, t. rewrite Day_of_day, Hy.
    destruct (DaysInYear_cases y) as [-> | ->]; reflexivity. }
  split; [unfold YearFromTime, t; now rewrite Day_of_day |].
  assert (Hmonth : MonthFromTime t = m - 1).
  { unfold MonthFromTime. rewrite Hw, Hl. clear Hw Hl Hy Hnext Hlast H0.
    revert Hd. unfold gregorian_days. rewrite leap_year_isLeapYear. unfold DaysInYear.
    month_cases m Hc.
    destruct (isLeapYear y);
      repeat (destruct Hc as [-> | Hc]); try subst m; intros Hd;
      fix_month_start; split_ltb; reflexivity. }
  split; [exact Hmonth |].
  unfold DateFromTime. cbv zeta. rewrite Hmonth, Hw, Hl.
  month_cases m Hc.
  destruct (DaysInYear_cases y) as [-> | ->];
    repeat (destruct Hc as [-> | Hc]); try subst m; fix_month_start;
    fix_index; cbv iota; lia.
Qed.

End Formatting.

(** ** The year read back, and the calendar behind the guard *)

Section MoreProgram.
Import DateMath DateFacts MonthFacts.
Variable host : Host.

Lemma full_year_cases y :
  (0 <= y <= 99 /\ full_year y = 1900 + y) \/ (~ 0 <= y <= 99 /\ full_year y = y).
Proof.
  unfold full_year.
  destruct (Z.leb_spec 0 y); destruct (Z.leb_spec y 99); cbn [andb]; lia.
Qed.

Lemma clip_day_ok d :
  -100000000 <= d <= 100000000 ->
  TimeClip (Some (d * msPerDay + MakeTime0)) = Some (d * msPerDay).
Proof.
  intros H. unfold TimeClip, MakeTime0, msPerDay. rewrite Z.add_0_r.
  destruct (Z.leb_spec (Z.abs (d * 86400000)) 8640000000000000); [reflexivity | lia].
Qed.

Lemma clip_day_out d :
  d < -100000000 \/ 100000000 < d ->
  TimeClip (Some (d * msPerDay + MakeTime0)) = None.
Proof.
  intros H. unfold TimeClip, MakeTime0, msPerDay. rewrite Z.add_0_r.
  destruct (Z.leb_spec (Z.abs (d * 86400000)) 8640000000000000); [lia | reflexivity].
Qed.

Lemma DayFromYear_first_valid y : -271820 <= y -> -99999744 <= DayFromYear y.
Proof. intros H. apply (DayFromYear_mono (-271820) y H). Qed.

Lemma DayFromYear_last_valid y : y <= 275760 -> DayFromYear y <= 99999744.
Proof. intros H. apply (DayFromYear_mono y 275760 H). Qed.

Lemma DayFromYear_too_early y : y <= -271821 -> DayFromYear y <= -100000109.
Proof.
  intros H. pose proof (DayFromYear_mono y (-271821) H) as M.
  pose proof (DayFromYear_succ (-271821)) as S.
  change (DayFromYear (-271821 + 1)) with (-99999744) in S.
  destruct (DaysInYear_cases (-271821)) as [E | E]; rewrite E in S; lia.
Qed.

Lemma DayFromYear_too_late y : 275761 <= y -> 100000109 <= DayFromYear y.
Proof.
  intros H. pose proof (DayFromYear_mono 275761 y H) as M.
  pose proof (DayFromYear_succ 275760) as S.
  change (DayFromYear (275760 + 1)) with (DayFromYear 275761) in S.
  change (DayFromYear 275760) with 99999744 in S.
  destruct (DaysInYear_cases 275760) as [E | E]; rewrite E in S; lia.
Qed.

(** X11: the year that isValidYear reads back from new Date(year, 1, 1) is,
    for an integer year from -271820 to 275760, the year itself (1900 plus
    the year for 0..99), and NaN for every other integer year. *)
Theorem isValidYear_readback (y : Z) :
  getFullYear (new_Date host (vnum y) (vnum 1) (vnum 1))
  = if (-271820 <=? y) && (y <=? 275760) then num (full_year y) else NaN.
Proof.
  unfold getFullYear, new_Date, vnum; cbn [DateValue ToNumber].
  rewrite MakeFullYear_num. unfold MakeDay. rewrite !finite_int_num.
  change (1 / 12) with 0. change (1 mod 12) with 1. rewrite Z.add_0_r.
  unfold month_start, MakeDate, UTC, LocalTime.
  replace (DayFromYear (full_year y) + 31 + 1 - 1)
    with (DayFromYear (full_year y) + 31) by lia.
  destruct (Z.leb_spec (-271820) y) as [Hl | Hl];
    destruct (Z.leb_spec y 275760) as [Hh | Hh]; cbn [andb].
  - assert (HY : -271820 <= full_year y <= 275760)
      by (destruct (full_year_cases y) as [[? ->] | [? ->]]; lia).
    pose proof (DayFromYear_first_valid _ (proj1 HY)).
    pose proof (DayFromYear_last_valid _ (proj2 HY)).
    rewrite clip_day_ok by lia.
    unfold YearFromTime. rewrite Day_of_day.
    rewrite YearFromDay_offset by (destruct (DaysInYear_cases (full_year y)); lia).
    reflexivity.
  - assert (HY : full_year y = y)
      by (destruct (full_year_cases y) as [[? ->] | [? ->]]; lia).
    rewrite HY. pose proof (DayFromYear_too_late y ltac:(lia)).
    rewrite clip_day_out by lia. reflexivity.
  - assert (HY : full_year y = y)
      by (destruct (full_year_cases y) as [[? ->] | [? ->]]; lia).
    rewrite HY. pose proof (DayFromYear_too_early y ltac:(lia)).
    rewrite clip_day_out by lia. reflexivity.
  - lia.
Qed.

(** *** The calendar behind the guard *)

Ltac fix_month_index :=
  repeat match goal with
  | |- context [indexOf months_en ?s + 1] =>
      let v := eval vm_compute in (indexOf months_en s + 1) in
      change (indexOf months_en s + 1) with v
  end.


Lemma calendar_counts_en y :
  -271820 <= y <= 275759 ->
  map (fun kv => (fst kv, count (snd kv))) (build_calendar host months_en (vnum y))
  = combine (map toLowerCase months_en)
      (map (fun m => num (gregorian_days (full_year y) m))
         [1; 2; 3; 4; 5; 6; 7; 8; 9; 10; 11; 12]).
Proof.
  intros Hy. rewrite build_calendar_en. unfold months_en at 2 3.
  cbn [map combine fst snd count month_record toLowerCase].
  fix_month_index.
  rewrite !getDaysInMonth_full by lia. reflexivity.
Qed.

Lemma swapped_collection_length y i :
  1 <= i <= 12 -> -271820 <= y <= 275759 ->
  List.length (listDaysInMonth host (vnum y) (vnum i))
  = Z.to_nat (gregorian_days (1900 + i + (y - 1) / 12) ((y - 1) mod 12 + 1)).
Proof.
  intros Hi Hy. rewrite listDaysInMonth_length.
  pose proof (Z.mod_pos_bound (y - 1) 12 ltac:(lia)) as Hm.
  pose proof (Z.div_mod (y - 1) 12 ltac:(lia)) as Hd.
  replace y with (((y - 1) mod 12 + 1) + 12 * ((y - 1) / 12)) at 1 by lia.
  assert (Hf : full_year i = 1900 + i)
    by (destruct (full_year_cases i) as [[? ->] | [? ->]]; lia).
  rewrite (getDaysInMonth_month_overflow_aux host i) by (rewrite ?Hf; lia).
  now rewrite Hf, loop_bound_num.
Qed.

End MoreProgram.

(** ** Objects with keys that repeat *)

Section MoreObjects.

Lemma in_keys_obj_set k v o k' :
  In k' (keys (obj_set k v o)) <-> k' = k \/ In k' (keys o).
Proof.
  induction o as [| [k0 v0] r IH]; cbn.
  - intuition.
  - destruct (String.eqb_spec k k0) as [-> | Hne]; cbn.
    + intuition.
    + unfold keys in IH. rewrite IH. intuition.
Qed.

Lemma NoDup_keys_obj_set k v o : NoDup (keys o) -> NoDup (keys (obj_set k v o)).
Proof.
  induction o as [| [k0 v0] r IH]; cbn; intros Hnd.
  - constructor; [intros [] | constructor].
  - inversion Hnd as [| ? ? Hk Hr]; subst.
    destruct (String.eqb_spec k k0) as [-> | Hne]; cbn.
    + constructor; assumption.
    + constructor; [| apply IH, Hr].
      intros Hin. apply in_keys_obj_set in Hin. destruct Hin as [-> | Hin]; [now apply Hne |].
      now apply Hk.
Qed.

Lemma obj_get_obj_set k v o k' :
  obj_get k' (obj_set k v o) = if String.eqb k' k then Some v else obj_get k' o.
Proof.
  induction o as [| [k0 v0] r IH]; cbn.
  - destruct (String.eqb k' k); reflexivity.
  - destruct (String.eqb_spec k k0) as [-> | Hne]; cbn.
    + destruct (String.eqb k' k0); reflexivity.
    + rewrite IH. destruct (String.eqb_spec k' k0) as [-> | Hne'].
      * destruct (String.eqb_spec k0 k) as [-> | _]; [now elim Hne | reflexivity].
      * reflexivity.
Qed.

Lemma in_keys_obj_spread src : forall dst k,
  In k (keys (obj_spread src dst)) <-> In k (keys dst) \/ In k (keys src).
Proof.
  induction src as [| [k0 v0] r IH]; intros dst k.
  - cbn. intuition.
  - unfold obj_spread. cbn [fold_left fst snd]. fold (obj_spread r (obj_set k0 v0 dst)).
    rewrite IH, in_keys_obj_set. cbn. intuition.
Qed.

Lemma NoDup_keys_obj_spread src : forall dst,
  NoDup (keys dst) -> NoDup (keys (obj_spread src dst)).
Proof.
  induction src as [| [k0 v0] r IH]; intros dst Hnd.
  - exact Hnd.
  - unfold obj_spread. cbn [fold_left fst snd]. fold (obj_spread r (obj_set k0 v0 dst)).
    apply IH, NoDup_keys_obj_set, Hnd.
Qed.

Lemma obj_get_None k o : obj_get k o = None <-> ~ In k (keys o).
Proof.
  induction o as [| [k0 v0] r IH]; cbn.
  - intuition.
  - destruct (String.eqb_spec k k0) as [-> | Hne].
    + split; [discriminate | intros H; elim H; now left].
    + rewrite IH. intuition.
Qed.

Variable host : Host.

Lemma keys_reduceRight names year l :
  NoDup (keys (reduceRight (month_entry host names year) [] l))
  /\ forall k, In k (keys (reduceRight (month_entry host names year) [] l))
               <-> In k (map toLowerCase l).
Proof.
  induction l as [| a l [IHn IHi]].
  - split; [constructor | reflexivity].
  - unfold reduceRight in *. cbn [fold_right map]. unfold month_entry at 1 3.
    split.
    + apply NoDup_keys_obj_spread. cbn. constructor; [intros [] | constructor].
    + intros k. rewrite in_keys_obj_spread. cbn [obj_set keys map fst In].
      unfold keys in IHi. rewrite IHi. intuition.
Qed.

Lemma obj_get_build_en year name :
  In name months_en ->
  obj_get (toLowerCase name) (build_calendar host months_en year)
  = Some (month_record host months_en year name).
Proof.
  intros Hin. rewrite build_calendar_en. unfold months_en at 2.
  cbn [map].
  unfold months_en in Hin. cbn [In] in Hin.
  repeat (destruct Hin as [<- | Hin]; [reflexivity |]). destruct Hin.
Qed.

End MoreObjects.
Section MonthStarts.
Import DateMath DateFacts MonthFacts.

Lemma month_start_prev_nonneg y m :
  1 <= m <= 12 -> 0 <= month_start (m - 1) (DaysInYear y - 365).
Proof.
  intros Hm. month_cases m Hc.
  destruct (DaysInYear_cases y) as [-> | ->];
    repeat (destruct Hc as [-> | Hc]); try subst m; fix_month_start; lia.
Qed.

End MonthStarts.

(** * Further theorems *)

(** X2: getDaysInMonth looks at its arguments only through their numeric
    value cut to an integer: a string or a fraction counts as the integer
    it truncates to. *)
Theorem getDaysInMonth_truncates (host : Host) (year month : value) (qy qm : Q) :
  ToNumber host year = Fin qy -> ToNumber host month = Fin qm ->
  getDaysInMonth host year month
  = getDaysInMonth host (vnum (Qtrunc qy)) (vnum (Qtrunc qm)).
Proof.
  intros Hy Hm. rewrite !getDaysInMonth_unfold, Hy, Hm.
  change (ToNumber host (vnum (Qtrunc qy))) with (num (Qtrunc qy)).
  change (ToNumber host (vnum (Qtrunc qm))) with (num (Qtrunc qm)).
  rewrite !finite_int_num. reflexivity.
Qed.

Lemma getDaysInMonth_truncates_witness :
  ToNumber SampleHost.host (VString "2024") = Fin (inject_Z 2024)
  /\ ToNumber SampleHost.host (VNumber (Fin (5 # 2))) = Fin (5 # 2)
  /\ getDaysInMonth SampleHost.host (VString "2024") (VNumber (Fin (5 # 2)))
     = getDaysInMonth SampleHost.host (vnum 2024) (vnum 2).
Proof.
  split; [reflexivity |]. split; [reflexivity |].
  exact (getDaysInMonth_truncates SampleHost.host (VString "2024")
           (VNumber (Fin (5 # 2))) (inject_Z 2024) (5 # 2) eq_refl eq_refl).
Defined.

(** X5: when the year or the month is not a finite number (undefined, NaN,
    an infinity, text the host reads as NaN), getDaysInMonth is NaN and
    listDaysInMonth is empty. *)
Theorem listDaysInMonth_not_finite (host : Host) (month year : value) :
  finite_int (ToNumber host year) = None \/ finite_int (ToNumber host month) = None ->
  getDaysInMonth host year month = NaN /\ listDaysInMonth host month year = [].
Proof.
  intros H. pose proof (getDaysInMonth_not_finite host year month H) as E.
  split; [exact E |]. rewrite listDaysInMonth_map, E. reflexivity.
Qed.

Lemma listDaysInMonth_not_finite_witness :
  (finite_int (ToNumber SampleHost.host (vnum 2024)) = None
   \/ finite_int (ToNumber SampleHost.host (VString "feb")) = None)
  /\ getDaysInMonth SampleHost.host (vnum 2024) (VString "feb") = NaN
  /\ listDaysInMonth SampleHost.host (VString "feb") (vnum 2024) = [].
Proof.
  split; [right; reflexivity |].
  exact (listDaysInMonth_not_finite SampleHost.host (VString "feb") (vnum 2024)
           (or_intror eq_refl)).
Defined.

(** X6: for a month from 1 to 12, every integer year outside -271821 ..
    275760 gives an invalid date: getDaysInMonth is NaN and listDaysInMonth
    is empty. *)
Theorem getDaysInMonth_out_of_range (host : Host) (y m : Z) :
  1 <= m <= 12 -> y < -271821 \/ 275760 < y ->
  getDaysInMonth host (vnum y) (vnum m) = NaN
  /\ listDaysInMonth host (vnum m) (vnum y) = [].
Proof.
  intros Hm Hy.
  assert (E : getDaysInMonth host (vnum y) (vnum m) = NaN).
  { rewrite getDaysInMonth_unfold.
    change (ToNumber host (vnum y)) with (num y).
    change (ToNumber host (vnum m)) with (num m).
    rewrite !finite_int_num.
    assert (HY : full_year y = y)
      by (destruct (full_year_cases y) as [[? ->] | [? ->]]; lia).
    rewrite HY, MonthFacts.last_day_offset by exact Hm.
    pose proof (MonthFacts.last_day_in_year y m Hm) as Hk.
    rewrite clip_day_out; [reflexivity |].
    destruct Hy as [Hy | Hy].
    - pose proof (DayFromYear_too_early (y + 1) ltac:(lia)) as Hb.
      rewrite DateFacts.DayFromYear_succ in Hb. lia.
    - pose proof (DayFromYear_too_late y ltac:(lia)). lia. }
  split; [exact E |]. rewrite listDaysInMonth_map, E. reflexivity.
Qed.

Lemma getDaysInMonth_out_of_range_witness :
  1 <= 6 <= 12 /\ (275761 < -271821 \/ 275760 < 275761)
  /\ getDaysInMonth SampleHost.host (vnum 275761) (vnum 6) = NaN
  /\ listDaysInMonth SampleHost.host (vnum 6) (vnum 275761) = [].
Proof.
  split; [lia |]. split; [right; lia |].
  exact (getDaysInMonth_out_of_range SampleHost.host 275761 6
           ltac:(lia) ltac:(right; lia)).
Defined.



(** X10: when the year, the month or the day is not a finite number,
    formatDate formats an invalid date: the host is given no time value. *)
Theorem formatDate_invalid (host : Host) (month day year : value) (loc : option string) :
  finite_int (ToNumber host year) = None
  \/ finite_int (ToNumber host month) = None
  \/ finite_int (ToNumber host day) = None ->
  formatDate host month day year loc = toLocaleDateString host None loc.
Proof.
  intros H. rewrite formatDate_unfold.
  destruct H as [-> | [H | H]]; [reflexivity | |].
  - assert (E : finite_int (num_sub (ToNumber host month) (num 1)) = None)
      by (destruct (ToNumber host month); [reflexivity | reflexivity | discriminate]).
    rewrite E. destruct (finite_int (ToNumber host year)); reflexivity.
  - rewrite H. destruct (finite_int (ToNumber host year)); [| reflexivity].
    destruct (finite_int (num_sub (ToNumber host month) (num 1))); reflexivity.
Qed.

Lemma formatDate_invalid_witness :
  (finite_int (ToNumber SampleHost.host (vnum 2024)) = None
   \/ finite_int (ToNumber SampleHost.host VUndefined) = None
   \/ finite_int (ToNumber SampleHost.host (vnum 1)) = None)
  /\ formatDate SampleHost.host VUndefined (vnum 1) (vnum 2024) None = "Invalid Date".
Proof.
  split; [right; left; reflexivity |].
  exact (formatDate_invalid SampleHost.host VUndefined (vnum 1) (vnum 2024) None
           (or_intror (or_introl eq_refl))).
Defined.

(** X14: the bundle's getCalendarYear never returns: for every argument it
    passes its inverted guard (isValidYear is false) and then reads the
    undeclared identifier months, a ReferenceError. *)
Theorem bundle_getCalendarYear_never_returns (host : Host) (year : value) :
  Bundle.getCalendarYear host year = Throw ReferenceError
  /\ forall r : result, Bundle.getCalendarYear host year <> Normal r.
Proof.
  assert (E : Bundle.getCalendarYear host year = Throw ReferenceError).
  { unfold Bundle.getCalendarYear, Bundle.getCalendarYear_with.
    rewrite isValidYear_false. reflexivity. }
  split; [exact E |]. intros r. rewrite E. discriminate.
Qed.

(** X16: in a calendar built from the English table, looking up the
    lower-cased name of a month finds the record of that month (the day
    count of the month at that position, and the list listDaysInMonth gives
    for the exchanged arguments); any other key, such as a capitalised
    month name, is absent. *)
Theorem calendar_lookup (host : Host) (valid : value -> completion bool)
    (year : value) (c : CalendarYear) :
  getCalendarYear_with host valid initial_store year = Normal (Calendar c) ->
  (forall name : string,
     In name months_en ->
     obj_get (toLowerCase name) c
     = Some {| count := getDaysInMonth host year (vnum (indexOf months_en name + 1));
               collection := listDaysInMonth host year (vnum (indexOf months_en name + 1)) |})
  /\ (forall k : string,
        ~ In k (map toLowerCase months_en) -> obj_get k c = None)
  /\ (forall name : string, In name months_en -> obj_get name c = None).
Proof.
  intros H.
  assert (Hc : c = build_calendar host months_en year).
  { destruct (valid year) as [[|] | e] eqn:E.
    - rewrite (getCalendarYear_with_valid host valid _ E) in H. congruence.
    - rewrite (getCalendarYear_with_invalid host valid _ _ E) in H. discriminate.
    - unfold getCalendarYear_with in H. rewrite E in H. discriminate. }
  subst c.
  assert (Habsent : forall k : string,
             ~ In k (map toLowerCase months_en) ->
             obj_get k (build_calendar host months_en year) = None).
  { intros k Hk. apply obj_get_None. now rewrite keys_build_calendar_en. }
  split; [intros name Hin; now apply obj_get_build_en |].
  split; [exact Habsent |].
  intros name Hin. apply Habsent. rewrite months_en_lower.
  unfold months_en in Hin. cbn [In] in Hin |- *.
  repeat (destruct Hin as [<- | Hin]; [intuition discriminate |]). destruct Hin.
Qed.

Lemma calendar_lookup_witness :
  getCalendarYear_with SampleHost.host (fun _ => Normal true) initial_store (vnum 2024)
  = Normal (Calendar (build_calendar SampleHost.host months_en (vnum 2024)))
  /\ obj_get "January" (build_calendar SampleHost.host months_en (vnum 2024)) = None
  /\ (exists l : list string,
        obj_get "february" (build_calendar SampleHost.host months_en (vnum 2024))
        = Some {| count := num 29; collection := l |}).
Proof.
  split; [reflexivity |].
  destruct (calendar_lookup SampleHost.host (fun _ => Normal true) (vnum 2024) _ eq_refl)
    as (Hget & _ & Hcap).
  split; [apply Hcap; cbn; tauto |].
  eexists. exact (Hget "February" ltac:(cbn; tauto)).
Defined.


